(** * Embeddable chat widget runtime: mounting, resilience and conversation turns

    A shallow embedding of the widget scripts of the repository:
    - [Widget]: [frontend/public/widget.js] (the public widget: [init],
      [waitForDOM], [createChatbot], the wiring callback and [sendMessage]);
    - [Wix]: the widget script that follows the auth store in
      [frontend/src/stores/authStore.ts] (its [sendMessage], the one-second
      interval callback and [enforcePosition]);
    - [Floors]: the tenant-by-domain widget ([detectTenant], [sendMessage],
      [handleSendMessage], [initWidget]).

    JavaScript strings are modelled as [string]; [Date.now()] is an input of
    type [N]; the document is a forest of element nodes in document order. *)

From Stdlib Require Import Ascii.
From stdpp Require Import base decidable option numbers list strings pretty gmap.

Set Warnings "-register-all".

(** ** JavaScript values and strings *)

Module Js.

(** The double-quote character, used to write attribute values. *)
Definition dq : string := String (ascii_of_nat 34) EmptyString.

(** The line feed character. *)
Definition lf : ascii := ascii_of_nat 10.

(** ECMAScript white space and line terminators among the code units below
    128: TAB, LF, VT, FF, CR and SP. *)
Definition is_white (c : ascii) : bool :=
  let n := nat_of_ascii c in
  bool_decide (n = 9 ∨ n = 10 ∨ n = 11 ∨ n = 12 ∨ n = 13 ∨ n = 32)%nat.

Fixpoint trim_start (s : string) : string :=
  match s with
  | EmptyString => EmptyString
  | String c s' => if is_white c then trim_start s' else s
  end.

(** [String.prototype.trim]. *)
Definition trim (s : string) : string :=
  String.rev (trim_start (String.rev (trim_start s))).

(** Exceptions a script can raise in the modelled code. *)
Inductive exn :=
  | TypeError (what : string)
  | NetworkError
  | SyntaxError.

(** Parsed JSON bodies.  Numbers are restricted to integers. *)
Inductive json :=
  | JNull
  | JBool (b : bool)
  | JNum (n : Z)
  | JStr (s : string)
  | JArr (l : list json)
  | JObj (fields : list (string * json)).

(** A JavaScript value read out of a JSON body: [None] is [undefined]. *)
Definition value := option json.

Fixpoint assoc (k : string) (l : list (string * json)) : value :=
  match l with
  | [] => None
  | (k', v) :: l' => if decide (k' = k) then Some v else assoc k l'
  end.

(** Property read [v.k].  Reading a property of [null] or [undefined] throws;
    on the other JSON values a missing property reads as [undefined].  A later
    duplicate key of an object wins in [JSON.parse]; objects are kept with the
    winning binding first. *)
Definition get_prop (v : value) (k : string) : exn + value :=
  match v with
  | None => inl (TypeError k)
  | Some JNull => inl (TypeError k)
  | Some (JObj fs) => inr (assoc k fs)
  | Some _ => inr None
  end.

(** Truthiness, as used by [||] and [if]. *)
Definition truthy (v : value) : bool :=
  match v with
  | None => false
  | Some JNull => false
  | Some (JBool b) => b
  | Some (JNum n) => bool_decide (n ≠ 0%Z)
  | Some (JStr s) => bool_decide (s ≠ "")
  | Some (JArr _) => true
  | Some (JObj _) => true
  end.

Definition join_comma (l : list string) : string :=
  match l with
  | [] => ""
  | x :: xs => fold_left (λ acc y, acc +:+ "," +:+ y) xs x
  end.

(** String conversion of a value inside a template literal. *)
Fixpoint to_text (j : json) : string :=
  match j with
  | JNull => "null"
  | JBool true => "true"
  | JBool false => "false"
  | JNum n => pretty n
  | JStr s => s
  | JArr l =>
      join_comma (map (λ x, match x with JNull => "" | _ => to_text x end) l)
  | JObj _ => "[object Object]"
  end.

Definition text_of (v : value) : string :=
  match v with
  | None => "undefined"
  | Some j => to_text j
  end.

(** [o || d] for an optional string option of the configuration. *)
Definition or_default (o : option string) (d : string) : string :=
  match o with
  | Some s => if decide (s = "") then d else s
  | None => d
  end.

(** [${o}] for an optional string. *)
Definition show (o : option string) : string :=
  match o with
  | Some s => s
  | None => "undefined"
  end.

(** [s.includes(t)] *)
Fixpoint includes (t s : string) : bool :=
  String.prefix t s ||
  match s with
  | EmptyString => false
  | String _ s' => includes t s'
  end.

(** [s.replace(/pat/g, rep)] for a literal, non-empty pattern: [skip] counts
    the code units of a match that are still to be passed over. *)
Fixpoint replace_go (pat rep : string) (skip : nat) (s : string) : string :=
  match s with
  | EmptyString => EmptyString
  | String c s' =>
      match skip with
      | S k => replace_go pat rep k s'
      | O =>
          if String.prefix pat s
          then rep +:+ replace_go pat rep (String.length pat - 1) s'
          else String c (replace_go pat rep 0 s')
      end
  end.

Definition replace_all (pat rep s : string) : string := replace_go pat rep 0 s.




End Js.

(** ** The document *)

Module Dom.

(** What an element stands for in the conversation.  [Plain] elements are
    layout; the others are the entries of the message list.  A message entry
    carries the markup that was appended to [innerHTML] to create it. *)
Inductive role :=
  | Plain
  | Welcome (html : string)
  | UserMsg (html : string)
  | Typing
  | AssistantMsg (html : string)
  | ErrorMsg (html : string).

(** An element: its [id] attribute (empty when it has none), its role and
    its child elements. *)
Inductive node :=
  | Node (nid : string) (nrole : role) (kids : list node).

Definition node_id (n : node) : string := let 'Node i _ _ := n in i.
Definition node_role (n : node) : role := let 'Node _ r _ := n in r.
Definition node_kids (n : node) : list node := let 'Node _ _ ks := n in ks.

Definition forest := list node.

Definition first_some {A B} (f : A → option B) : list A → option B :=
  fix go l :=
    match l with
    | [] => None
    | x :: l' => match f x with Some y => Some y | None => go l' end
    end.

(** First element with the given id in document order. *)
Fixpoint find_id (i : string) (n : node) : option node :=
  match n with
  | Node j _ ks =>
      if decide (j = i) then Some n else first_some (find_id i) ks
  end.

(** [document.getElementById(i)] *)
Definition getElementById (i : string) (f : forest) : option node :=
  first_some (find_id i) f.

(** Number of elements carrying the id [i]. *)
Fixpoint count_id (i : string) (n : node) : nat :=
  match n with
  | Node j _ ks =>
      (if decide (j = i) then 1 else 0) + sum_list (map (count_id i) ks)
  end.

Definition count_id_forest (i : string) (f : forest) : nat :=
  sum_list (map (count_id i) f).

(** [document.querySelectorAll('#a, #b').forEach(el => el.remove())]: every
    element whose id is among [ids] leaves the document with its subtree. *)
Fixpoint prune (ids : list string) (n : node) : node :=
  match n with
  | Node j r ks =>
      Node j r (filter (λ k, node_id k ∉ ids) (map (prune ids) ks))
  end.

Definition prune_forest (ids : list string) (f : forest) : forest :=
  filter (λ k, node_id k ∉ ids) (map (prune ids) f).

(** [el.remove()] for the first direct child of a list carrying id [i]. *)
Fixpoint remove_first (i : string) (l : list node) : list node :=
  match l with
  | [] => []
  | n :: l' => if decide (node_id n = i) then l' else n :: remove_first i l'
  end.

Definition is_typing (n : node) : bool :=
  match node_role n with Typing => true | _ => false end.

Definition count (p : node → bool) (l : list node) : nat :=
  length (List.filter p l).

End Dom.

(** ** Script effects: state and exceptions *)

Module Eff.
Import Js.

(** How a script fragment completes. *)
Inductive completion (A : Type) :=
  | Normal (a : A)
  | Throw (e : exn).
Arguments Normal {A} a.
Arguments Throw {A} e.

(** A script fragment over a state [S]: the state it leaves and how it
    completed.  State changes made before a [throw] persist. *)
Definition M (S A : Type) : Type := S → S * completion A.

Definition ret {S A} (a : A) : M S A := λ s, (s, Normal a).

Definition bind {S A B} (m : M S A) (k : A → M S B) : M S B :=
  λ s, match m s with
       | (s', Normal a) => k a s'
       | (s', Throw e) => (s', Throw e)
       end.

Definition raise {S A} (e : exn) : M S A := λ s, (s, Throw e).

(** [try { m } catch (e) { h e }] *)
Definition try_catch {S A} (m : M S A) (h : exn → M S A) : M S A :=
  λ s, match m s with
       | (s', Normal a) => (s', Normal a)
       | (s', Throw e) => h e s'
       end.

Definition get {S} : M S S := λ s, (s, Normal s).
Definition modify {S} (f : S → S) : M S unit := λ s, (f s, Normal tt).

Definition lift {S A} (r : exn + A) : M S A :=
  match r with
  | inl e => raise e
  | inr a => ret a
  end.

#[export] Instance M_ret {S} : MRet (M S) := λ A, @ret S A.
#[export] Instance M_bind {S} : MBind (M S) := λ A B k m, @bind S A B m k.

End Eff.

(** ** The public widget: [frontend/public/widget.js] *)

Module Widget.
Import Js Dom Eff.

(** The configuration object handed to [init]; every option may be absent. *)
Record Config := {
  apiUrl : option string;
  primaryColor : option string;
  companyName : option string;
  welcomeMessage : option string
}.

Definition BUTTON_ID : string := "ai-chatbot-button".
Definition WINDOW_ID : string := "ai-chatbot-window".

(** The selector ['#ai-chatbot-button, #ai-chatbot-window']. *)
Definition reserved : list string := [BUTTON_ID; WINDOW_ID].

(** [config.primaryColor || '#8B4513'] *)
Definition accent (c : Config) : string := or_default (primaryColor c) "#8B4513".

Definition style (s : string) : string := " style=" +:+ dq +:+ s +:+ dq.

Definition default_welcome : string :=
  "¡Hola! Soy el asistente de HC Manos de un Artista 🎨<br><br>Puedo ayudarte con información sobre:<br>• Nuestros servicios de carpintería<br>• Presupuestos y cotizaciones<br>• Tiempos de entrega<br>• Proyectos personalizados<br><br>¿En qué puedo ayudarte hoy?".

(** The element tree that [chatContainer.innerHTML = `...`] builds: the
    toggle control, the style sheet and the panel with its header, message
    list (holding the welcome bubble) and input row. *)
Definition chatButton : node :=
  Node BUTTON_ID Plain [ Node "" Plain [] ].

Definition chatWindow (c : Config) : node :=
  Node WINDOW_ID Plain
    [ Node "" Plain
        [ Node "" Plain
            [ Node "" Plain [];
              Node "" Plain [ Node "" Plain []; Node "" Plain [] ] ];
          Node "chat-close" Plain [];
          Node "" Plain [] ];
      Node "chat-messages" Plain
        [ Node "" (Welcome (or_default (welcomeMessage c) default_welcome))
            [ Node "" Plain [];
              Node "" Plain [ Node "" Plain []; Node "" Plain [] ] ] ];
      Node "" Plain
        [ Node "" Plain [ Node "chat-input" Plain [] ];
          Node "chat-send" Plain [ Node "" Plain [] ] ] ].

Definition chatContainer (c : Config) : node :=
  Node "" Plain [ chatButton; Node "" Plain []; chatWindow c ].

(** What the functions defined inside one run of [createChatbot] close over. *)
Record Closure := {
  cl_config : Config;
  conversationId : string
}.

(** Callbacks handed to [setTimeout] and [addEventListener]. *)
Inductive task :=
  | WaitCallback (config : option Config)
  | CreateChatbot (config : option Config)
  | Backup (config : option Config)
  | Wire (cl : Closure).

(** The host page as the widget sees it.  [body] is the list of children of
    [document.body], [None] while the document has no body. *)
Record Page := {
  loading : bool;
  body : option forest;
  console : list string;
  timers : list (N * task);
  domContentLoaded : list task
}.

Definition elements (p : Page) : forest := default [] (body p).

Definition set_body (b : option forest) (p : Page) : Page :=
  {| loading := loading p; body := b; console := console p;
     timers := timers p; domContentLoaded := domContentLoaded p |}.

Definition console_write (line : string) : M Page unit :=
  modify (λ p, {| loading := loading p; body := body p;
                  console := console p ++ [line];
                  timers := timers p; domContentLoaded := domContentLoaded p |}).

Definition setTimeout (t : task) (delay : N) : M Page unit :=
  modify (λ p, {| loading := loading p; body := body p; console := console p;
                  timers := timers p ++ [(delay, t)];
                  domContentLoaded := domContentLoaded p |}).

Definition addDomContentLoaded (t : task) : M Page unit :=
  modify (λ p, {| loading := loading p; body := body p; console := console p;
                  timers := timers p;
                  domContentLoaded := domContentLoaded p ++ [t] |}).

(** [waitForDOM(callback)] *)
Definition waitForDOM (callback : task) : M Page unit :=
  p ← get;
  if loading p then addDomContentLoaded callback else setTimeout callback 1000.

(** The body of the [try] block of [createChatbot]. *)
Definition createChatbot_try (config : option Config) (now : N) : M Page unit :=
  modify (λ p, set_body (prune_forest reserved <$> body p) p);;
  let conversationId := "web-chat-" +:+ pretty now in
  c ← match config with
      | Some c => ret c
      | None => raise (TypeError "primaryColor")
      end;
  let chatContainer := chatContainer c in
  p ← get;
  match body p with
  | Some b =>
      modify (set_body (Some (b ++ [chatContainer])));;
      setTimeout (Wire {| cl_config := c; conversationId := conversationId |}) 500
  | None => console_write "Document body not ready"
  end.

(** [createChatbot()] *)
Definition createChatbot (config : option Config) (now : N) : M Page unit :=
  try_catch (createChatbot_try config now)
            (λ _, console_write "Error creating chatbot:").

(** The ids of the six elements that the wiring callback looks up. *)
Definition wired_ids : list string :=
  [ BUTTON_ID; WINDOW_ID; "chat-close"; "chat-send"; "chat-input"; "chat-messages" ].

(** The callback that [createChatbot] defers by 500ms: it looks the six
    elements up by id and gives up when one is missing. *)
Definition wire (cl : Closure) : M Page unit :=
  p ← get;
  if forallb (λ i, bool_decide (is_Some (getElementById i (elements p)))) wired_ids
  then console_write "✅ Chatbot moderno inicializado con efectos avanzados"
  else console_write "Chatbot elements not found:".

(** The backup callback of [init]. *)
Definition backup (config : option Config) (now : N) : M Page unit :=
  p ← get;
  match getElementById BUTTON_ID (elements p) with
  | None => console_write "Retrying chatbot creation...";; createChatbot config now
  | Some _ => mret ()
  end.

(** [AIChatbot.init(config)] *)
Definition init (config : option Config) : M Page unit :=
  waitForDOM (WaitCallback config);;
  setTimeout (Backup config) 5000.

(** Running one callback when the clock reads [now]. *)
Definition run_task (now : N) (t : task) : M Page unit :=
  match t with
  | WaitCallback config => setTimeout (CreateChatbot config) 1000
  | CreateChatbot config => createChatbot config now
  | Backup config => backup config now
  | Wire cl => wire cl
  end.

(** Running callbacks one after the other, each with the clock reading at
    which it runs. *)
Fixpoint run_tasks (l : list (N * task)) (p : Page) : Page :=
  match l with
  | [] => p
  | (now, t) :: l' => run_tasks l' (run_task now t p).1
  end.



(** *** The conversation: [sendMessage] *)

(** Markup of the user bubble around [${message}]; white space between the
    tokens of the templates is not reproduced. *)
Definition user_open (c : Config) : string :=
  "<div" +:+ style "text-align: right; margin-bottom: 16px; animation: messageSlideIn 0.3s ease-out;" +:+ ">"
  +:+ "<div" +:+ style ("background: linear-gradient(135deg, " +:+ accent c +:+ ", #CD853F); color: white; padding: 12px 18px; border-radius: 20px 20px 5px 20px; display: inline-block; max-width: 75%; font-size: 14px; line-height: 1.4; box-shadow: 0 2px 8px rgba(139, 69, 19, 0.2); position: relative; word-wrap: break-word;") +:+ ">".

Definition user_close : string :=
  "<!-- Indicador de envío -->"
  +:+ "<div" +:+ style "position: absolute; bottom: -8px; right: 8px; width: 0; height: 0; border-left: 8px solid transparent; border-right: 8px solid transparent; border-top: 8px solid #CD853F;" +:+ "></div>"
  +:+ "</div></div>".

Definition user_html (c : Config) (message : string) : string :=
  user_open c +:+ message +:+ user_close.

(** Markup of the assistant bubble around [${formattedResponse}]. *)
Definition assistant_open (c : Config) : string :=
  "<div" +:+ style "margin-bottom: 16px; animation: messageSlideIn 0.4s ease-out;" +:+ ">"
  +:+ "<div" +:+ style "display: flex; align-items: flex-start; gap: 12px;" +:+ ">"
  +:+ "<!-- Avatar del bot -->"
  +:+ "<div" +:+ style ("width: 32px; height: 32px; background: linear-gradient(135deg, " +:+ accent c +:+ ", #CD853F); border-radius: 50%; display: flex; align-items: center; justify-content: center; font-size: 16px; flex-shrink: 0; box-shadow: 0 2px 8px rgba(139, 69, 19, 0.3);") +:+ ">🎨</div>"
  +:+ "<!-- Mensaje del bot -->"
  +:+ "<div" +:+ style "background: linear-gradient(135deg, #f8f9fa, #e9ecef); padding: 16px 20px; border-radius: 20px 20px 20px 5px; max-width: 85%; font-size: 14px; color: #2c3e50; line-height: 1.5; box-shadow: 0 2px 8px rgba(0,0,0,0.08); border: 1px solid rgba(0,0,0,0.05); position: relative; word-wrap: break-word;" +:+ ">".

Definition assistant_close : string :=
  "<!-- Indicador de respuesta automática -->"
  +:+ "<div" +:+ style "position: absolute; bottom: -8px; left: 8px; width: 0; height: 0; border-left: 8px solid transparent; border-right: 8px solid transparent; border-top: 8px solid #e9ecef;" +:+ "></div>"
  +:+ "</div></div></div>".

Definition assistant_html (c : Config) (formattedResponse : string) : string :=
  assistant_open c +:+ formattedResponse +:+ assistant_close.

(** Markup of the two error bubbles, which differ in their text only. *)
Definition error_html (text : string) : string :=
  "<div" +:+ style "margin-bottom: 8px;" +:+ ">"
  +:+ "<span" +:+ style "background: #ffe6e6; padding: 6px 10px; border-radius: 12px; display: inline-block; max-width: 80%; font-size: 13px; color: #cc0000;" +:+ ">"
  +:+ text +:+ "</span></div>".

(** [`❌ Error: ${errorData.detail || 'No se pudo procesar tu mensaje'}`] *)
Definition server_error_text (detail : value) : string :=
  "❌ Error: "
  +:+ (if truthy detail then text_of detail else "No se pudo procesar tu mensaje").

Definition connection_error_text (c : Config) : string :=
  "❌ Error de conexión. Verifica que el backend esté ejecutándose en "
  +:+ show (apiUrl c).

(** The characters that [.] of a regular expression does not match, among
    the code units below 128: LF and CR. *)
Definition is_line_terminator (ch : ascii) : bool :=
  bool_decide (nat_of_ascii ch = 10 ∨ nat_of_ascii ch = 13)%nat.

(** The text after a leading [**], if the string starts with one. *)
Definition after_stars (s : string) : option string :=
  match s with
  | String "*"%char (String "*"%char t) => Some t
  | _ => None
  end.

(** After an opening [**]: the shortest run [(.*?)] that is followed by
    [**], if there is one. *)
Fixpoint bold_close (s : string) : option string :=
  match s with
  | EmptyString => None
  | String ch s' =>
      if bool_decide (is_Some (after_stars s)) then Some EmptyString
      else if is_line_terminator ch then None
      else String ch <$> bold_close s'
  end.

(** [s.replace(/\*\*(.*?)\*\*/g, opening + '$1' + closing)] *)
Fixpoint bold_go (opening closing : string) (skip : nat) (s : string) : string :=
  match s with
  | EmptyString => EmptyString
  | String ch s' =>
      match skip with
      | S k => bold_go opening closing k s'
      | O =>
          match after_stars s ≫= bold_close with
          | Some inner =>
              opening +:+ inner +:+ closing
              +:+ bold_go opening closing (String.length inner + 3) s'
          | None => String ch (bold_go opening closing 0 s')
          end
      end
  end.

(** [data.response.replace(/\n/g, '<br>').replace(/\*\*(.*?)\*\*/g,
    '<strong style="color: ...;">$1</strong>').replace(/• /g,
    '&nbsp;&nbsp;• ')] *)
Definition formatResponse (c : Config) (response : string) : string :=
  replace_all "• " "&nbsp;&nbsp;• "
    (bold_go ("<strong" +:+ style ("color: " +:+ accent c +:+ ";") +:+ ">")
             "</strong>" 0
       (replace_all (String lf EmptyString) "<br>" response)).

(** The entries appended to the message list. *)
Definition user_entry (c : Config) (message : string) : node :=
  Node "" (UserMsg (user_html c message)) [ Node "" Plain [ Node "" Plain [] ] ].

Definition typing_entry (typingId : string) : node :=
  Node typingId Typing
    [ Node "" Plain
        [ Node "" Plain [];
          Node "" Plain
            [ Node "" Plain
                [ Node "" Plain [ Node "" Plain []; Node "" Plain []; Node "" Plain [] ];
                  Node "" Plain [] ] ] ] ].

Definition assistant_entry (c : Config) (formattedResponse : string) : node :=
  Node "" (AssistantMsg (assistant_html c formattedResponse))
    [ Node "" Plain [ Node "" Plain []; Node "" Plain [ Node "" Plain [] ] ] ].

Definition error_entry (text : string) : node :=
  Node "" (ErrorMsg (error_html text)) [ Node "" Plain [] ].

(** The JSON body of the chat request. *)
Record Body := {
  message : string;
  conversation_id : string;
  use_rag : bool;
  max_documents : Z
}.

Record Request := {
  url : string;
  method : string;
  content_type : string;
  payload : Body
}.

(** What the handlers of a wired widget act on: the value of the input
    field, the children of the message list, the requests issued so far and
    the console.  The placeholders are the only elements whose id starts
    with [typing-], so [document.getElementById(typingId)] is a search of the
    message list. *)
Record Chat := {
  input : string;
  messages : list node;
  requests : list Request;
  chat_console : list string
}.

Definition set_input (v : string) (st : Chat) : Chat :=
  {| input := v; messages := messages st; requests := requests st;
     chat_console := chat_console st |}.

(** [messages.innerHTML += markup] for the markup of one entry. *)
Definition append (n : node) (st : Chat) : Chat :=
  {| input := input st; messages := messages st ++ [n];
     requests := requests st; chat_console := chat_console st |}.

Definition fetch (r : Request) (st : Chat) : Chat :=
  {| input := input st; messages := messages st;
     requests := requests st ++ [r]; chat_console := chat_console st |}.

Definition chat_log (line : string) (st : Chat) : Chat :=
  {| input := input st; messages := messages st; requests := requests st;
     chat_console := chat_console st ++ [line] |}.

(** [const el = document.getElementById(typingId); if (el) el.remove()] *)
Definition remove_typing (typingId : string) (st : Chat) : Chat :=
  {| input := input st; messages := remove_first typingId (messages st);
     requests := requests st; chat_console := chat_console st |}.

(** A call of [sendMessage] suspended at [await fetch(...)]. *)
Record Pending := { typingId : string }.

(** How the awaited [fetch] settles: it rejects, or it resolves to a response
    with its [ok] flag and the result of parsing its body as JSON ([None]
    when [response.json()] rejects). *)
Inductive outcome :=
  | Rejected
  | Response (ok : bool) (parsed : option json).

(** [sendMessage()] up to its [await fetch(...)].  The handlers exist only
    once the wiring callback has found the input field and the message list,
    so the guard on these two references always passes. *)
Definition sendMessage_begin (cl : Closure) (now : N) (st : Chat)
  : Chat * option Pending :=
  let c := cl_config cl in
  let message := trim (input st) in
  if decide (message = "") then (st, None)
  else
    let st := append (user_entry c message) st in
    let st := set_input "" st in
    let typingId := "typing-" +:+ pretty now in
    let st := append (typing_entry typingId) st in
    let st := fetch {| url := show (apiUrl c) +:+ "/api/chat/public";
                       method := "POST";
                       content_type := "application/json";
                       payload := {| message := message;
                                     conversation_id := conversationId cl;
                                     use_rag := true;
                                     max_documents := 5 |} |} st in
    (st, Some {| typingId := typingId |}).

(** The rest of the [try] block, from the point where [fetch] settles. *)
Definition sendMessage_try (cl : Closure) (pd : Pending) (o : outcome)
  : M Chat unit :=
  let c := cl_config cl in
  match o with
  | Rejected => raise NetworkError
  | Response ok parsed =>
      modify (remove_typing (typingId pd));;
      if ok then
        data ← match parsed with
               | Some j => mret j
               | None => raise SyntaxError
               end;
        response ← lift (get_prop (Some data) "response");
        text ← match response with
               | Some (JStr s) => mret s
               | _ => raise (TypeError "replace")
               end;
        let formattedResponse := formatResponse c text in
        modify (append (assistant_entry c formattedResponse));;
        rag_used ← lift (get_prop (Some data) "rag_used");
        if truthy rag_used
        then modify (chat_log "✅ RAG was used for this response")
        else mret ()
      else
        let errorData := default (JObj []) parsed in
        detail ← lift (get_prop (Some errorData) "detail");
        modify (append (error_entry (server_error_text detail)))
  end.

(** The [catch] block. *)
Definition sendMessage_catch (cl : Closure) (pd : Pending) (e : exn)
  : M Chat unit :=
  modify (chat_log "Error connecting to backend:");;
  modify (remove_typing (typingId pd));;
  modify (append (error_entry (connection_error_text (cl_config cl)))).

(** [sendMessage()] from the point where [fetch] settles.  [Normal] is a
    fulfilled promise, [Throw] a rejected one. *)
Definition sendMessage_resume (cl : Closure) (pd : Pending) (o : outcome)
  : M Chat unit :=
  try_catch (sendMessage_try cl pd o) (sendMessage_catch cl pd).


(** A conversation: the chat state and the calls of [sendMessage] that are
    suspended at their network call, oldest first. *)
Record Session := {
  chat : Chat;
  inflight : list Pending
}.

(** What can happen to a wired widget: the user submits [text] when the clock
    reads [now], or the [k]-th suspended call gets its outcome. *)
Inductive event :=
  | Submit (text : string) (now : N)
  | Settle (k : nat) (o : outcome).

Definition step (cl : Closure) (ev : event) (s : Session) : Session :=
  match ev with
  | Submit text now =>
      match sendMessage_begin cl now (set_input text (chat s)) with
      | (st, Some pd) => {| chat := st; inflight := inflight s ++ [pd] |}
      | (st, None) => {| chat := st; inflight := inflight s |}
      end
  | Settle k o =>
      match inflight s !! k with
      | Some pd =>
          {| chat := (sendMessage_resume cl pd o (chat s)).1;
             inflight := delete k (inflight s) |}
      | None => s
      end
  end.

Definition run (cl : Closure) (evs : list event) (s : Session) : Session :=
  fold_left (λ s ev, step cl ev s) evs s.

(** The chat state that the handlers wired after a mount start from: the
    message list as [createChatbot] built it and no traffic. *)
Definition fresh_chat (window : node) : Chat :=
  {| input := "";
     messages := default [] (node_kids <$> find_id "chat-messages" window);
     requests := [];
     chat_console := [] |}.



(** The conversation of a freshly mounted and wired widget. *)
Definition session_start (c : Config) : Session :=
  {| chat := fresh_chat (chatWindow c); inflight := [] |}.


(** The id and kind of every entry of the message list, for display. *)
Definition kinds (s : Session) : list (string * string) :=
  (λ n, (node_id n,
         match node_role n with
         | Plain => "plain" | Welcome _ => "welcome" | UserMsg _ => "user"
         | Typing => "typing" | AssistantMsg _ => "assistant"
         | ErrorMsg _ => "error"
         end)) <$> messages (chat s).

(** The numbers of toggle controls and of panels in the document. *)
Definition toggles (p : Page) : nat := count_id_forest BUTTON_ID (elements p).
Definition panels (p : Page) : nat := count_id_forest WINDOW_ID (elements p).



End Widget.

(** ** The widget script in [frontend/src/stores/authStore.ts] *)

Module Wix.
Import Js Dom Eff.
Import Widget.

Record Config := {
  apiUrl : option string;
  companyName : option string;
  subtitle : option string
}.

(** *** Its [sendMessage] *)

Definition user_html (message : string) : string :=
  "<div" +:+ style "text-align: right; margin-bottom: 12px;" +:+ ">"
  +:+ "<div" +:+ style "background: linear-gradient(135deg, #2196F3, #1976D2); color: white; padding: 12px 18px; border-radius: 18px 18px 5px 18px; display: inline-block; max-width: 75%; animation: fadeIn 0.3s ease; box-shadow: 0 2px 8px rgba(33, 150, 243, 0.2); font-size: 14px; line-height: 1.4;" +:+ ">"
  +:+ message +:+ "</div></div>".

Definition assistant_html (formattedResponse : string) : string :=
  "<div" +:+ style "margin-bottom: 12px;" +:+ ">"
  +:+ "<div" +:+ style "background: white; padding: 18px; border-radius: 18px 18px 18px 5px; border-left: 4px solid #2196F3; max-width: 80%; animation: fadeIn 0.3s ease; box-shadow: 0 2px 10px rgba(33, 150, 243, 0.1); font-size: 14px; line-height: 1.5;" +:+ ">"
  +:+ "<div" +:+ style "display: flex; align-items: center; gap: 10px; margin-bottom: 10px;" +:+ ">"
  +:+ "<span" +:+ style "font-size: 16px;" +:+ ">🏠</span>"
  +:+ "<strong" +:+ style "color: #2196F3; font-size: 15px;" +:+ ">Asistente HC</strong>"
  +:+ "</div>"
  +:+ formattedResponse +:+ "</div></div>".

Definition error_html (text : string) : string :=
  "<div" +:+ style "margin-bottom: 10px;" +:+ ">"
  +:+ "<div" +:+ style "background: #ffebee; color: #c62828; padding: 10px; border-radius: 10px;" +:+ ">"
  +:+ text +:+ "</div></div>".

Definition server_error_text : string := "❌ Error al procesar el mensaje".
Definition connection_error_text : string := "❌ Error de conexión".

Definition formatResponse (response : string) : string :=
  replace_all "• " "&nbsp;&nbsp;• "
    (bold_go "<strong>" "</strong>" 0
       (replace_all (String lf EmptyString) "<br>" response)).

Definition user_entry (message : string) : node :=
  Node "" (UserMsg (user_html message)) [ Node "" Plain [] ].

Definition typing_entry (typingId : string) : node :=
  Node typingId Typing
    [ Node "" Plain
        [ Node "" Plain
            [ Node "" Plain [ Node "" Plain []; Node "" Plain []; Node "" Plain [] ];
              Node "" Plain [] ] ] ].

Definition assistant_entry (formattedResponse : string) : node :=
  Node "" (AssistantMsg (assistant_html formattedResponse))
    [ Node "" Plain [ Node "" Plain [ Node "" Plain []; Node "" Plain [] ] ] ].

Definition error_entry (text : string) : node :=
  Node "" (ErrorMsg (error_html text)) [ Node "" Plain [] ].

(** [sendMessage()] up to its [await fetch(...)]. *)
Definition sendMessage_begin (c : Config) (conversationId : string) (now : N)
  (st : Chat) : Chat * option Pending :=
  let message := trim (input st) in
  if decide (message = "") then (st, None)
  else
    let st := append (user_entry message) st in
    let st := set_input "" st in
    let typingId := "typing-" +:+ pretty now in
    let st := append (typing_entry typingId) st in
    let st := fetch {| url := show (apiUrl c) +:+ "/api/chat/public";
                       method := "POST";
                       content_type := "application/json";
                       payload := {| message := message;
                                     conversation_id := conversationId;
                                     use_rag := true;
                                     max_documents := 5 |} |} st in
    (st, Some {| typingId := typingId |}).

(** [document.getElementById(typingId).remove()], which throws when the
    element is not there. *)
Definition remove_typing_strict (typingId : string) : M Chat unit :=
  st ← get;
  if bool_decide (typingId ∈ node_id <$> messages st)
  then modify (remove_typing typingId)
  else raise (TypeError "remove").

(** The rest of the [try] block, from the point where [fetch] settles. *)
Definition sendMessage_try (pd : Pending) (o : outcome) : M Chat unit :=
  match o with
  | Rejected => raise NetworkError
  | Response ok parsed =>
      remove_typing_strict (typingId pd);;
      if ok then
        data ← match parsed with
               | Some j => mret j
               | None => raise SyntaxError
               end;
        response ← lift (get_prop (Some data) "response");
        text ← match response with
               | Some (JStr s) => mret s
               | _ => raise (TypeError "replace")
               end;
        modify (append (assistant_entry (formatResponse text)))
      else
        modify (append (error_entry server_error_text))
  end.

(** The [catch] block. *)
Definition sendMessage_catch (pd : Pending) (e : exn) : M Chat unit :=
  modify (remove_typing (typingId pd));;
  modify (append (error_entry connection_error_text)).

Definition sendMessage_resume (pd : Pending) (o : outcome) : M Chat unit :=
  try_catch (sendMessage_try pd o) (sendMessage_catch pd).

(** *** The resilience loop *)

(** The inline style of an element: each declared property with its value
    and whether it is marked [!important]. *)
Abbreviation css := (gmap string (string * bool)).

(** [el.style.prop = value]: the declaration is replaced by one that is not
    marked important. *)
Definition set_property (prop value : string) (s : css) : css :=
  <[prop := (value, false)]> s.

(** The two elements the loop looks up by id, each with its inline style;
    [None] when [getElementById] finds nothing. *)
Record Controls := {
  chatButton : option css;
  chatWindow : option css
}.

(** The callback of [setInterval(..., 1000)]. *)
Definition interval_tick (d : Controls) : Controls :=
  {| chatButton :=
       (λ s, set_property "transition" "none"
               (set_property "transform" "none"
                 (set_property "z-index" "2147483647"
                   (set_property "right" "20px"
                     (set_property "bottom" "20px"
                       (set_property "position" "fixed" s))))))
       <$> chatButton d;
     chatWindow :=
       (λ s, set_property "z-index" "2147483646"
               (set_property "right" "20px"
                 (set_property "bottom" "90px"
                   (set_property "position" "fixed" s))))
       <$> chatWindow d |}.

(** The declarations that [enforcePosition] assigns to [style.cssText]. *)
Definition enforced : list (string * (string * bool)) :=
  [ ("position", ("fixed", true));
    ("bottom", ("20px", true));
    ("right", ("20px", true));
    ("width", ("60px", true));
    ("height", ("60px", true));
    ("z-index", ("2147483647", true));
    ("transform", ("none", true));
    ("transition", ("none", true));
    ("background", ("linear-gradient(135deg, #2196F3, #1976D2)", true));
    ("border-radius", ("50%", true));
    ("display", ("flex", true));
    ("align-items", ("center", true));
    ("justify-content", ("center", true));
    ("color", ("white", true));
    ("font-size", ("24px", true));
    ("cursor", ("pointer", true));
    ("box-shadow", ("0 6px 25px rgba(33, 150, 243, 0.4)", true));
    ("border", ("3px solid rgba(255,255,255,0.3)", true));
    ("animation", ("pulse 2s infinite", true)) ].

(** The scroll and resize listener. *)
Definition enforcePosition (d : Controls) : Controls :=
  {| chatButton := (λ _, list_to_map enforced) <$> chatButton d;
     chatWindow := chatWindow d |}.

(** The geometry the loop defends: fixed position, the offsets from the
    bottom and right edges, and the stacking order. *)
Definition critical_geometry (s : css) : Prop :=
  fst <$> s !! "position" = Some "fixed" ∧
  fst <$> s !! "bottom" = Some "20px" ∧
  fst <$> s !! "right" = Some "20px" ∧
  fst <$> s !! "z-index" = Some "2147483647".

End Wix.

(** ** The tenant-by-domain widget *)

Module Floors.
Import Js Dom Eff.

(** [CONFIG]: the backend address is fixed, [DOMAIN] is the host name of the
    page with its port when it has one. *)
Definition API_BASE : string := "https://ai-chatbot-rize-corsorigins-7c54.up.railway.app".
Definition BRAND_NAME : string := "Floors Installer Pro".

Definition DOMAIN (hostname port : string) : string :=
  hostname +:+ (if decide (port = "") then "" else ":" +:+ port).

Definition hex_digit (n : nat) : ascii :=
  ascii_of_nat (if decide (n < 10)%nat then 48 + n else 55 + n).

(** The characters [encodeURIComponent] leaves alone: letters, digits and
    [- _ . ! ~ * ' ( )]. *)
Definition unreserved (ch : ascii) : bool :=
  let n := nat_of_ascii ch in
  bool_decide ((48 ≤ n ∧ n ≤ 57) ∨ (65 ≤ n ∧ n ≤ 90) ∨ (97 ≤ n ∧ n ≤ 122)
               ∨ n = 45 ∨ n = 95 ∨ n = 46 ∨ n = 33 ∨ n = 126 ∨ n = 42
               ∨ n = 39 ∨ n = 40 ∨ n = 41)%nat.

(** [encodeURIComponent] on the UTF-8 bytes of a string. *)
Fixpoint encodeURIComponent (s : string) : string :=
  match s with
  | EmptyString => EmptyString
  | String ch s' =>
      if unreserved ch then String ch (encodeURIComponent s')
      else
        let n := nat_of_ascii ch in
        String "%"%char
          (String (hex_digit (n / 16))
             (String (hex_digit (n mod 16)) (encodeURIComponent s')))
  end.

(** The requests the widget issues. *)
Inductive Request :=
  | TenantDetect (url : string)
  | ChatByDomain (url : string) (message domain : string).

(** How an awaited [fetch] settles: it rejects, or it resolves to a response
    whose body parses as JSON or does not ([None]).  This widget never looks
    at the status of a response. *)
Inductive outcome :=
  | Rejected
  | Response (parsed : option json).

(** The module-level variables, the part of the page the widget acts on and
    the calls that are suspended at a network request. *)
Record State := {
  currentTenant : value;
  isOpen : bool;
  isInitialized : bool;
  body : forest;
  tenant_status : string;
  input : string;
  messages : list node;
  requests : list Request;
  console : list string;
  detecting : nat;
  sending : nat
}.

Definition container : node :=
  Node "floors-chatbot-container" Plain
    [ Node "floors-chat-toggle" Plain [ Node "" Plain [ Node "" Plain [] ] ];
      Node "floors-chat-window" Plain
        [ Node "" Plain
            [ Node "" Plain [ Node "" Plain []; Node "floors-tenant-status" Plain [] ];
              Node "floors-chat-close" Plain [ Node "" Plain [ Node "" Plain [] ] ] ];
          Node "floors-chat-messages" Plain
            [ Node "" (Welcome ("¡Hola! Soy el asistente de <strong>" +:+ BRAND_NAME
                                +:+ "</strong>. ¿En qué puedo ayudarte con la instalación de pisos?"))
                [ Node "" Plain [ Node "" Plain [] ] ] ];
          Node "" Plain
            [ Node "" Plain
                [ Node "floors-chat-input" Plain [];
                  Node "floors-send-btn" Plain [ Node "" Plain [ Node "" Plain [] ] ] ] ] ] ].

Definition upd_console (line : string) (s : State) : State :=
  {| currentTenant := currentTenant s; isOpen := isOpen s;
     isInitialized := isInitialized s; body := body s;
     tenant_status := tenant_status s; input := input s;
     messages := messages s; requests := requests s;
     console := console s ++ [line];
     detecting := detecting s; sending := sending s |}.

Definition upd_requests (r : Request) (s : State) : State :=
  {| currentTenant := currentTenant s; isOpen := isOpen s;
     isInitialized := isInitialized s; body := body s;
     tenant_status := tenant_status s; input := input s;
     messages := messages s; requests := requests s ++ [r];
     console := console s;
     detecting := detecting s; sending := sending s |}.

Definition upd_messages (f : list node → list node) (s : State) : State :=
  {| currentTenant := currentTenant s; isOpen := isOpen s;
     isInitialized := isInitialized s; body := body s;
     tenant_status := tenant_status s; input := input s;
     messages := f (messages s); requests := requests s;
     console := console s;
     detecting := detecting s; sending := sending s |}.

Definition upd_input (v : string) (s : State) : State :=
  {| currentTenant := currentTenant s; isOpen := isOpen s;
     isInitialized := isInitialized s; body := body s;
     tenant_status := tenant_status s; input := v;
     messages := messages s; requests := requests s;
     console := console s;
     detecting := detecting s; sending := sending s |}.

Definition upd_tenant (t : value) (s : State) : State :=
  {| currentTenant := t; isOpen := isOpen s;
     isInitialized := isInitialized s; body := body s;
     tenant_status := tenant_status s; input := input s;
     messages := messages s; requests := requests s;
     console := console s;
     detecting := detecting s; sending := sending s |}.

Definition upd_suspended (d n : nat) (s : State) : State :=
  {| currentTenant := currentTenant s; isOpen := isOpen s;
     isInitialized := isInitialized s; body := body s;
     tenant_status := tenant_status s; input := input s;
     messages := messages s; requests := requests s;
     console := console s;
     detecting := d; sending := n |}.

(** [v === 'success'] *)
Definition is_success (v : value) : bool :=
  match v with
  | Some (JStr s) => bool_decide (s = "success")
  | _ => false
  end.

(** [detectTenant()] from the point where its [fetch] settles. *)
Definition detectTenant_try (domain : string) (o : outcome) : M State bool :=
  match o with
  | Rejected => raise NetworkError
  | Response parsed =>
      data ← match parsed with
             | Some j => mret j
             | None => raise SyntaxError
             end;
      status ← lift (get_prop (Some data) "status");
      tenant ← (if is_success status
                then lift (get_prop (Some data) "tenant")
                else mret None);
      if is_success status && truthy tenant then
        modify (upd_tenant tenant);;
        name ← lift (get_prop tenant "name");
        modify (upd_console ("✅ Tenant detected: " +:+ text_of name));;
        mret true
      else
        modify (upd_console ("⚠️ No tenant found for domain: " +:+ domain));;
        mret false
  end.

Definition detectTenant_resume (domain : string) (o : outcome) : M State bool :=
  try_catch (detectTenant_try domain o)
            (λ _, modify (upd_console "❌ Error detecting tenant:");; mret false).

(** What [sendMessage] resolves to. *)
Record Reply := {
  response : value;
  sources : value
}.

Definition no_tenant_reply : Reply :=
  {| response := Some (JStr "Error: No se pudo detectar la configuración del asistente para este dominio.");
     sources := Some (JArr []) |}.

(** [a || b] on values. *)
Definition or_else (a b : value) : value := if truthy a then a else b.

(** [sendMessage(message)] from the point where its [fetch] settles. *)
Definition sendMessage_try (o : outcome) : M State Reply :=
  match o with
  | Rejected => raise NetworkError
  | Response parsed =>
      data ← match parsed with
             | Some j => mret j
             | None => raise SyntaxError
             end;
      status ← lift (get_prop (Some data) "status");
      r ← lift (get_prop (Some data) "response");
      if is_success status then
        src ← lift (get_prop (Some data) "sources");
        mret {| response := r; sources := or_else src (Some (JArr [])) |}
      else
        mret {| response := or_else r (Some (JStr "Error en el sistema. Intenta de nuevo."));
                sources := Some (JArr []) |}
  end.

Definition sendMessage_resume (o : outcome) : M State Reply :=
  try_catch (sendMessage_try o)
    (λ _, modify (upd_console "Error sending message:");;
          mret {| response := Some (JStr "Error de conexión. Por favor, intenta de nuevo.");
                  sources := Some (JArr []) |}).

(** [createChatWidget()] *)
Definition createChatWidget (s : State) : State :=
  {| currentTenant := currentTenant s; isOpen := isOpen s;
     isInitialized := isInitialized s; body := body s ++ [container];
     tenant_status := tenant_status s; input := input s;
     messages := messages s; requests := requests s;
     console := console s;
     detecting := detecting s; sending := sending s |}.

(** [updateTenantStatus()] *)
Definition updateTenantStatus : M State unit :=
  s ← get;
  match getElementById "floors-tenant-status" (body s) with
  | None => mret ()
  | Some _ =>
      text ← (if truthy (currentTenant s)
              then name ← lift (get_prop (currentTenant s) "name");
                   mret ("Conectado: " +:+ text_of name)
              else mret "Error de conexión");
      modify (λ s,
        {| currentTenant := currentTenant s; isOpen := isOpen s;
           isInitialized := isInitialized s; body := body s;
           tenant_status := text; input := input s;
           messages := messages s; requests := requests s;
           console := console s;
           detecting := detecting s; sending := sending s |})
  end.

(** [addMessage(message, isUser)]: the text must be a string, since
    [message.replace] is called on it. *)
Definition addMessage (message : value) (isUser : bool) : M State unit :=
  text ← match message with
         | Some (JStr s) => mret s
         | _ => raise (TypeError "replace")
         end;
  let html := replace_all (String lf EmptyString) "<br>" text in
  modify (upd_messages (λ l, l ++ [Node "" (if isUser then UserMsg html
                                              else AssistantMsg html) []])).

Definition typingDiv : node := Node "typing-indicator" Typing [].

(** [document.getElementById('typing-indicator')?.remove()] *)
Definition remove_typing : M State unit :=
  modify (upd_messages (remove_first "typing-indicator")).

(** [result.sources.map(s => s.filename).join(', ')] for an array. *)
Fixpoint filenames (l : list json) : exn + list string :=
  match l with
  | [] => inr []
  | x :: l' =>
      match get_prop (Some x) "filename", filenames l' with
      | inr f, inr fs =>
          inr (match f with None | Some JNull => "" | Some j => to_text j end :: fs)
      | inl e, _ => inl e
      | _, inl e => inl e
      end
  end.

Definition join_with (sep : string) (l : list string) : string :=
  match l with
  | [] => ""
  | x :: xs => fold_left (λ acc y, acc +:+ sep +:+ y) xs x
  end.

(** The part of [handleSendMessage] that shows the sources of a reply: a
    non-empty array is listed, a non-empty string has a length but no [map],
    and the other values are taken to have no positive [length]. *)
Definition show_sources (src : value) : M State unit :=
  match src with
  | Some (JArr (x :: l)) =>
      names ← lift (filenames (x :: l));
      addMessage (Some (JStr ("📋 Información basada en: " +:+ join_with ", " names))) false
  | Some (JStr s) => if decide (s = "") then mret () else raise (TypeError "map")
  | _ => mret ()
  end.

(** [handleSendMessage()] from the point where [sendMessage] has produced
    its reply, with its [catch] block. *)
Definition handle_reply (reply : M State Reply) : M State unit :=
  try_catch
    (result ← reply;
     remove_typing;;
     addMessage (response result) false;;
     show_sources (sources result))
    (λ _, remove_typing;;
          addMessage (Some (JStr "Error: No se pudo procesar tu mensaje. Intenta de nuevo.")) false).

(** [handleSendMessage()] up to the point where the call of [sendMessage]
    is suspended at its [fetch]; without a tenant [sendMessage] issues no
    request and the handler runs to its end. *)
Definition handleSendMessage_begin (domain : string) : M State unit :=
  s ← get;
  let message := trim (input s) in
  if decide (message = "") then mret ()
  else
    addMessage (Some (JStr message)) true;;
    modify (upd_input "");;
    modify (upd_messages (λ l, l ++ [typingDiv]));;
    s ← get;
    if truthy (currentTenant s) then
      modify (upd_requests
        (ChatByDomain (API_BASE +:+ "/api/chat/by-domain") message domain));;
      modify (λ s, upd_suspended (detecting s) (S (sending s)) s)
    else
      handle_reply (mret no_tenant_reply).

Definition handleSendMessage_resume (o : outcome) : M State unit :=
  handle_reply (sendMessage_resume o).

(** [initWidget()] up to [await detectTenant()], where the lookup request
    has been issued. *)
Definition initWidget_begin (domain : string) : M State unit :=
  s ← get;
  if isInitialized s then mret ()
  else
    modify (upd_console "🚀 Initializing Floors Installer Chatbot...");;
    modify (upd_console ("Domain: " +:+ domain));;
    modify (upd_requests
      (TenantDetect (API_BASE +:+ "/api/tenant/detect?domain="
                     +:+ encodeURIComponent domain)));;
    modify (λ s, upd_suspended (S (detecting s)) (sending s) s).

(** [initWidget()] from the point where the lookup has settled. *)
Definition initWidget_resume (domain : string) (o : outcome) : M State unit :=
  tenantDetected ← detectTenant_resume domain o;
  modify createChatWidget;;
  updateTenantStatus;;
  modify (upd_console
    (if tenantDetected : bool
     then "✅ Floors Installer Chatbot initialized successfully"
     else "⚠️ Chatbot initialized but tenant detection failed"));;
  modify (λ s,
    {| currentTenant := currentTenant s; isOpen := isOpen s;
       isInitialized := true; body := body s;
       tenant_status := tenant_status s; input := input s;
       messages := messages s; requests := requests s;
       console := console s;
       detecting := detecting s; sending := sending s |}).

(** What can happen on the page: [initWidget] is called, a pending lookup
    settles, the user submits a text, a pending chat request settles. *)
Inductive event :=
  | Init
  | LookupSettles (o : outcome)
  | Submit (text : string)
  | ChatSettles (o : outcome).

Definition step (domain : string) (ev : event) (s : State) : State :=
  match ev with
  | Init => (initWidget_begin domain s).1
  | LookupSettles o =>
      match detecting s with
      | S d => (initWidget_resume domain o (upd_suspended d (sending s) s)).1
      | O => s
      end
  | Submit text => (handleSendMessage_begin domain (upd_input text s)).1
  | ChatSettles o =>
      match sending s with
      | S n => (handleSendMessage_resume o (upd_suspended (detecting s) n s)).1
      | O => s
      end
  end.

Definition run (domain : string) (evs : list event) (s : State) : State :=
  fold_left (λ s ev, step domain ev s) evs s.

(** The page when the script is loaded. *)
Definition initial (host : forest) : State :=
  {| currentTenant := None; isOpen := false; isInitialized := false;
     body := host; tenant_status := ""; input := ""; messages := [];
     requests := []; console := []; detecting := 0; sending := 0 |}.




Definition is_lookup (r : Request) : bool :=
  match r with TenantDetect _ => true | _ => false end.

End Floors.

(** ** Sample data: the scenarios of the specification *)

Module Scenario.
Import Js Dom Eff.

(** [{ apiUrl: "https://x.test" }] *)
Definition config : Widget.Config :=
  {| Widget.apiUrl := Some "https://x.test";
     Widget.primaryColor := None;
     Widget.companyName := None;
     Widget.welcomeMessage := None |}.

Definition closure : Widget.Closure :=
  {| Widget.cl_config := config; Widget.conversationId := "web-chat-1700000000000" |}.

(** A loaded host page with a body holding one element of its own. *)
Definition page : Widget.Page :=
  {| Widget.loading := false;
     Widget.body := Some [ Node "root" Plain [] ];
     Widget.console := [];
     Widget.timers := [];
     Widget.domContentLoaded := [] |}.


(** An HTTP 500 with a JSON body. *)
Definition http500 : Widget.outcome :=
  Widget.Response false (Some (JObj [ ("detail", JStr "Internal Server Error") ])).

Definition empty_chat : Widget.Chat :=
  {| Widget.input := ""; Widget.messages := [];
     Widget.requests := []; Widget.chat_console := [] |}.

(** The same configuration for the widget of the auth store file. *)
Definition wix_config : Wix.Config :=
  {| Wix.apiUrl := Some "https://x.test";
     Wix.companyName := None;
     Wix.subtitle := None |}.

End Scenario.

(** ** The auth store: [frontend/src/stores/authStore.ts] *)

Module Auth.
Import Js.

(** [User] of [types/index.ts]. *)
Record User := {
  id : Z;
  email : string;
  username : string;
  full_name : string;
  is_active : bool
}.

(** A failed request as the response interceptor sees it: the status of the
    response, when there was one, and [error.response?.data?.detail] when it
    is a string. *)
Record ApiError := {
  status : option Z;
  detail : option string
}.

(** A request that left the browser: its path and the [Authorization]
    header the request interceptor gave it. *)
Record Call := {
  path : string;
  authorization : option string
}.

Inductive Toast :=
  | ToastSuccess (text : string)
  | ToastError (text : string).

(** The store ([user], [token], [isAuthenticated], [isLoading]) together
    with what its actions touch outside it: the [token] entry of
    [localStorage], the toasts, the console, [window.location.href] and the
    requests sent. *)
Record World := {
  user : option User;
  token : option string;
  isAuthenticated : bool;
  isLoading : bool;
  storedToken : option string;
  toasts : list Toast;
  console : list string;
  location : option string;
  calls : list Call
}.

(** A script fragment: the world it leaves, and its value or the error it
    rejects with. *)
Definition M (A : Type) : Type := World → World * (ApiError + A).

Definition ret {A} (a : A) : M A := λ w, (w, inr a).
Definition bind {A B} (m : M A) (k : A → M B) : M B :=
  λ w, match m w with
       | (w', inr a) => k a w'
       | (w', inl e) => (w', inl e)
       end.
Definition throw {A} (e : ApiError) : M A := λ w, (w, inl e).
Definition modify (f : World → World) : M unit := λ w, (f w, inr tt).
Definition get : M World := λ w, (w, inr w).

(** [try { m } catch (e) { h e } finally { f }] where [f] does not throw. *)
Definition try_catch_finally {A} (m : M A) (h : ApiError → M A)
    (f : World → World) : M A :=
  λ w, match m w with
       | (w', inr a) => (f w', inr a)
       | (w', inl e) => let '(w'', r) := h e w' in (f w'', r)
       end.

(** [try { m } catch (e) { h e }] *)
Definition try_catch {A} (m : M A) (h : ApiError → M A) : M A :=
  try_catch_finally m h (λ w, w).

#[export] Instance M_ret : MRet M := @ret.
#[export] Instance M_bind : MBind M := λ A B k m, @bind A B m k.

(** [set({ ... })] for the fields an action assigns. *)
Definition set_loading (b : bool) (w : World) : World :=
  {| user := user w; token := token w; isAuthenticated := isAuthenticated w;
     isLoading := b; storedToken := storedToken w; toasts := toasts w;
     console := console w; location := location w; calls := calls w |}.

Definition set_token (t : option string) (w : World) : World :=
  {| user := user w; token := t; isAuthenticated := isAuthenticated w;
     isLoading := isLoading w; storedToken := storedToken w; toasts := toasts w;
     console := console w; location := location w; calls := calls w |}.

Definition set_auth (u : option User) (t : option string) (a : bool) (w : World)
  : World :=
  {| user := u; token := t; isAuthenticated := a;
     isLoading := isLoading w; storedToken := storedToken w; toasts := toasts w;
     console := console w; location := location w; calls := calls w |}.

Definition set_user (u : option User) (a : bool) (w : World) : World :=
  {| user := u; token := token w; isAuthenticated := a;
     isLoading := isLoading w; storedToken := storedToken w; toasts := toasts w;
     console := console w; location := location w; calls := calls w |}.

(** [localStorage.setItem('token', t)] and [localStorage.removeItem('token')] *)
Definition store_token (t : option string) (w : World) : World :=
  {| user := user w; token := token w; isAuthenticated := isAuthenticated w;
     isLoading := isLoading w; storedToken := t; toasts := toasts w;
     console := console w; location := location w; calls := calls w |}.

Definition toast (t : Toast) (w : World) : World :=
  {| user := user w; token := token w; isAuthenticated := isAuthenticated w;
     isLoading := isLoading w; storedToken := storedToken w;
     toasts := toasts w ++ [t];
     console := console w; location := location w; calls := calls w |}.

Definition console_error (line : string) (w : World) : World :=
  {| user := user w; token := token w; isAuthenticated := isAuthenticated w;
     isLoading := isLoading w; storedToken := storedToken w; toasts := toasts w;
     console := console w ++ [line]; location := location w; calls := calls w |}.

Definition redirect (href : string) (w : World) : World :=
  {| user := user w; token := token w; isAuthenticated := isAuthenticated w;
     isLoading := isLoading w; storedToken := storedToken w; toasts := toasts w;
     console := console w; location := Some href; calls := calls w |}.

Definition record_call (c : Call) (w : World) : World :=
  {| user := user w; token := token w; isAuthenticated := isAuthenticated w;
     isLoading := isLoading w; storedToken := storedToken w; toasts := toasts w;
     console := console w; location := location w; calls := calls w ++ [c] |}.

(** A string or [null] as a condition. *)
Definition present (t : option string) : bool :=
  match t with
  | Some s => negb (bool_decide (s = ""))
  | None => false
  end.

(** The request interceptor: the header it adds when a token is stored. *)
Definition bearer (w : World) : option string :=
  match storedToken w with
  | Some t => if present (Some t) then Some ("Bearer " +:+ t) else None
  | None => None
  end.

(** The response interceptor's error handler. *)
Definition on_error (e : ApiError) : M unit :=
  (if bool_decide (status e = Some 401%Z)
   then modify (store_token None);; modify (redirect "/login")
   else mret ());;
  modify (toast (ToastError (or_default (detail e) "An error occurred"))).

(** A request through the [api] instance: both interceptors around the
    outcome of the request. *)
Definition request {A} (path : string) (outcome : ApiError + A) : M A :=
  w ← get;
  modify (record_call {| path := path; authorization := bearer w |});;
  match outcome with
  | inr a => mret a
  | inl e => on_error e;; throw e
  end.

(** [refreshUser()], given how [authApi.getCurrentUser()] would settle. *)
Definition refreshUser (me : ApiError + User) : M unit :=
  try_catch
    (w ← get;
     let token := storedToken w in
     if negb (present token) then
       modify (set_auth None None false)
     else
       u ← request "/auth/me" me;
       modify (set_auth (Some u) token true))
    (λ _,
       modify (console_error "Refresh user error:");;
       modify (store_token None);;
       modify (set_auth None None false)).

(** [login(credentials)], given how [authApi.login] settles (with the
    [access_token] of its response) and how [getCurrentUser] would. *)
Definition login (r : ApiError + string) (me : ApiError + User) : M unit :=
  try_catch_finally
    (modify (set_loading true);;
     access_token ← request "/auth/login" r;
     modify (store_token (Some access_token));;
     modify (set_token (Some access_token));;
     refreshUser me;;
     modify (toast (ToastSuccess "Logged in successfully!")))
    (λ e, modify (console_error "Login error:");; throw e)
    (set_loading false).

(** [register(data)], given how [authApi.register] settles. *)
Definition register (r : ApiError + User) : M unit :=
  try_catch_finally
    (modify (set_loading true);;
     u ← request "/auth/register" r;
     modify (set_user (Some u) true);;
     modify (toast (ToastSuccess "Registration successful! Please log in.")))
    (λ e, modify (console_error "Registration error:");; throw e)
    (set_loading false).

(** [logout()] *)
Definition logout : M unit :=
  modify (store_token None);;
  modify (set_auth None None false);;
  modify (toast (ToastSuccess "Logged out successfully")).

(** [setLoading(loading)] *)
Definition setLoading (loading : bool) : M unit := modify (set_loading loading).

(** The actions of the store, each with the outcomes of the requests it may
    make, run one after the other. *)
Inductive action :=
  | Login (r : ApiError + string) (me : ApiError + User)
  | Register (r : ApiError + User)
  | Logout
  | RefreshUser (me : ApiError + User)
  | SetLoading (loading : bool).

Definition act (a : action) : M unit :=
  match a with
  | Login r me => login r me
  | Register r => register r
  | Logout => logout
  | RefreshUser me => refreshUser me
  | SetLoading b => setLoading b
  end.

Definition run (l : list action) (w : World) : World :=
  fold_left (λ w a, (act a w).1) l w.

(** The store as [create] builds it, in a browser with the given stored
    token. *)
Definition initial (stored : option string) : World :=
  {| user := None; token := None; isAuthenticated := false; isLoading := false;
     storedToken := stored; toasts := []; console := []; location := None;
     calls := [] |}.

End Auth.

(** ** Notions used to state further properties of the widgets *)

Module More.
Import Js Dom Widget.





End More.

(** ** The widget script of the auth store file: mounting and the panel *)

Module WixMount.
Import Js Dom Eff.

Definition BUTTON_ID : string := Widget.BUTTON_ID.
Definition WINDOW_ID : string := Widget.WINDOW_ID.
Definition reserved : list string := Widget.reserved.

(** The element tree of [container.innerHTML = `...`]: the style sheet,
    the toggle control and the panel with header, message list and input
    row. *)
Definition container : node :=
  Node "" Plain
    [ Node "" Plain [];
      Node BUTTON_ID Plain [];
      Node WINDOW_ID Plain
        [ Node "" Plain
            [ Node "" Plain
                [ Node "" Plain [];
                  Node "" Plain [ Node "" Plain []; Node "" Plain [] ] ];
              Node "chat-close" Plain [] ];
          Node "chat-messages" Plain
            [ Node "" (Welcome "¡Hola! Soy el asistente de HC Manos de un Artista.<br><br>Puedo ayudarte con:<br>• Servicios de carpintería<br>• Presupuestos<br>• Proyectos personalizados<br><br>¿En qué puedo ayudarte?")
                [ Node "" Plain [ Node "" Plain []; Node "" Plain [] ];
                  Node "" Plain [] ] ];
          Node "" Plain
            [ Node "chat-input" Plain [];
              Node "chat-send" Plain [] ] ] ].

(** Callbacks: the [DOMContentLoaded] listener that appends the container,
    and the wiring deferred by 500ms, with the conversationId its handlers
    close over. *)
Inductive task :=
  | Append
  | Wire (conversationId : string).

(** The host page.  [richText] lists the elements matching
    [[data-testid="richTextElement"]] with their [innerHTML] and their
    [style.cssText]; [wired] lists the conversationIds of the wirings that
    installed their handlers; [intervals] and [listeners] count the
    [setInterval] and [addEventListener] registrations of the resilience
    loop. *)
Record Page := {
  body : option forest;
  richText : list (string * string);
  console : list string;
  timers : list (N * task);
  domContentLoaded : list task;
  wired : list string;
  intervals : nat;
  listeners : nat
}.

Definition elements (p : Page) : forest := default [] (body p).

Definition set_body (b : option forest) (p : Page) : Page :=
  {| body := b; richText := richText p; console := console p;
     timers := timers p; domContentLoaded := domContentLoaded p;
     wired := wired p; intervals := intervals p; listeners := listeners p |}.

Definition console_write (line : string) (p : Page) : Page :=
  {| body := body p; richText := richText p; console := console p ++ [line];
     timers := timers p; domContentLoaded := domContentLoaded p;
     wired := wired p; intervals := intervals p; listeners := listeners p |}.

Definition hidden_css : string :=
  "position: absolute !important; left: -9999px !important; width: 1px !important; height: 1px !important; opacity: 0 !important; overflow: hidden !important;".

(** The loop over [wixContainers]. *)
Definition hide_wix (p : Page) : Page :=
  {| body := body p;
     richText := (λ e, if includes "AIChatbot.init" e.1 then (e.1, hidden_css)
                       else e) <$> richText p;
     console := console p;
     timers := timers p; domContentLoaded := domContentLoaded p;
     wired := wired p; intervals := intervals p; listeners := listeners p |}.

Definition setTimeout (t : task) (delay : N) (p : Page) : Page :=
  {| body := body p; richText := richText p; console := console p;
     timers := timers p ++ [(delay, t)];
     domContentLoaded := domContentLoaded p;
     wired := wired p; intervals := intervals p; listeners := listeners p |}.

Definition addDomContentLoaded (t : task) (p : Page) : Page :=
  {| body := body p; richText := richText p; console := console p;
     timers := timers p;
     domContentLoaded := domContentLoaded p ++ [t];
     wired := wired p; intervals := intervals p; listeners := listeners p |}.

(** [AIChatbot.init(config)]: nothing in it catches an exception. *)
Definition init (config : option Wix.Config) (now : N) : M Page unit :=
  modify (λ p, set_body (prune_forest reserved <$> body p) p);;
  modify hide_wix;;
  let conversationId := "web-chat-" +:+ pretty now in
  _ ← match config with
      | Some c => mret c
      | None => raise (TypeError "companyName")
      end;
  p ← get;
  match body p with
  | Some b => modify (set_body (Some (b ++ [container])))
  | None => modify (addDomContentLoaded Append)
  end;;
  modify (setTimeout (Wire conversationId) 500).

(** The wiring callback: the six lookups, then the handlers, the interval
    and the three scroll and resize listeners. *)
Definition wire (conversationId : string) : M Page unit :=
  p ← get;
  if forallb (λ i, bool_decide (is_Some (getElementById i (elements p))))
       Widget.wired_ids
  then
    modify (λ p,
      {| body := body p; richText := richText p;
         console := console p ++ ["✅ Widget HC Manos de un Artista cargado"];
         timers := timers p; domContentLoaded := domContentLoaded p;
         wired := wired p ++ [conversationId];
         intervals := S (intervals p); listeners := 3 + listeners p |})
  else modify (console_write "Widget elements not found").

(** [document.body.appendChild(container)] in the listener. *)
Definition append_container : M Page unit :=
  p ← get;
  match body p with
  | Some b => modify (set_body (Some (b ++ [container])))
  | None => raise (TypeError "appendChild")
  end.

Definition run_task (t : task) : M Page unit :=
  match t with
  | Append => append_container
  | Wire conversationId => wire conversationId
  end.

(** The document finishes loading with the given children of its body, if
    it had no body before, and the [DOMContentLoaded] listeners run in the
    order of their registration; an exception in one does not stop the
    others. *)
Definition domReady (b : forest) (p : Page) : Page :=
  let p0 :=
    {| body := Some (default b (body p)); richText := richText p;
       console := console p; timers := timers p; domContentLoaded := [];
       wired := wired p; intervals := intervals p; listeners := listeners p |} in
  fold_left (λ q t, (run_task t q).1) (domContentLoaded p) p0.

Definition toggles (p : Page) : nat := count_id_forest BUTTON_ID (elements p).
Definition panels (p : Page) : nat := count_id_forest WINDOW_ID (elements p).


(** *** The panel and the resilience loop *)

Import Wix.

(** [el.style.display] *)
Definition display_of (s : css) : string := default "" (fst <$> s !! "display").

(** [button.onclick] and [closeBtn.onclick], on the inline style of the
    panel. *)
Definition toggle (s : css) : css :=
  set_property "display" (if decide (display_of s = "none") then "block" else "none") s.

Definition close (s : css) : css := set_property "display" "none" s.

Definition click_toggle (d : Controls) : Controls :=
  {| chatButton := chatButton d; chatWindow := toggle <$> chatWindow d |}.

Definition click_close (d : Controls) : Controls :=
  {| chatButton := chatButton d; chatWindow := close <$> chatWindow d |}.

(** The properties the interval callback assigns on the toggle control and
    on the panel. *)
Definition button_props : list string :=
  [ "position"; "bottom"; "right"; "z-index"; "transform"; "transition" ].
Definition window_props : list string :=
  [ "position"; "bottom"; "right"; "z-index" ].

End WixMount.

(** ** The panel of the tenant-by-domain widget *)

Module FloorsPanel.
Import Js Eff.

(** [isOpen], the [display] of the panel element ([None] when the document
    holds no such element), whether the input field exists and whether it
    has been given the focus. *)
Record Panel := {
  isOpen : bool;
  chatWindow : option string;
  chatInput : bool;
  focused : bool
}.

(** [closeChat()] *)
Definition closeChat : M Panel unit :=
  p ← get;
  match chatWindow p with
  | None => raise (TypeError "style")
  | Some _ =>
      modify (λ p, {| isOpen := false; chatWindow := Some "none";
                      chatInput := chatInput p; focused := focused p |})
  end.

(** [toggleChat()] *)
Definition toggleChat : M Panel unit :=
  p ← get;
  if isOpen p then closeChat
  else
    match chatWindow p with
    | None => raise (TypeError "style")
    | Some _ =>
        modify (λ p, {| isOpen := true; chatWindow := Some "block";
                        chatInput := chatInput p; focused := focused p |});;
        if chatInput p
        then modify (λ p, {| isOpen := isOpen p; chatWindow := chatWindow p;
                             chatInput := chatInput p; focused := true |})
        else raise (TypeError "focus")
    end.

(** [FloorsInstallerChatbot.open()] *)
Definition open : M Panel unit :=
  p ← get;
  if negb (isOpen p) then toggleChat else mret ().

(** What the user and the host page can do to the panel. *)
Inductive action := Toggle | Close | Open.

Definition act (a : action) : M Panel unit :=
  match a with
  | Toggle => toggleChat
  | Close => closeChat
  | Open => open
  end.

Definition run (l : list action) (p : Panel) : Panel :=
  fold_left (λ p a, (act a p).1) l p.

(** The panel as [createChatWidget] leaves it. *)
Definition mounted : Panel :=
  {| isOpen := false; chatWindow := Some "none"; chatInput := true;
     focused := false |}.

(** The panel and the flag agree, and the input field exists. *)
Definition panel_ok (p : Panel) : Prop :=
  chatInput p = true ∧
  (isOpen p = true ∧ chatWindow p = Some "block" ∨
   isOpen p = false ∧ chatWindow p = Some "none").

End FloorsPanel.

(** * The tenant-by-domain widget with a tenant *)

Module FloorsMore.
Import Js Dom Eff Floors.


(** The texts of a trace's submissions that are not blank, trimmed. *)
Definition submitted (evs : list event) : list string :=
  omap (λ ev, match ev with
              | Submit text =>
                  if decide (trim text = "") then None else Some (trim text)
              | _ => None
              end) evs.


(** The characters of an encoded URI component. *)
Definition url_safe (ch : ascii) : bool :=
  unreserved ch || bool_decide (ch = "%"%char).

(** An entry of the message list is the typing indicator, or it has no id
    and is not one. *)
Definition entry_ok (n : node) : Prop :=
  n = typingDiv ∨ (node_id n = "" ∧ is_typing n = false).


(** The widget is connected: a tenant is known, the page-load lookup has
    settled, the message list is made of typing indicators and entries
    without id, and there are at most as many typing indicators as chat
    requests that have not settled. *)
Definition connected (s : State) : Prop :=
  truthy (currentTenant s) = true ∧ isInitialized s = true ∧
  detecting s = 0 ∧ Forall entry_ok (messages s) ∧
  count is_typing (messages s) ≤ sending s.


End FloorsMore.

(** * Properties *)

Import Js Dom Eff.

(** ** Document lemmas *)

Lemma node_ind' (P : node → Prop) :
  (∀ i r ks, Forall P ks → P (Node i r ks)) → ∀ n, P n.
Proof.
  intros H. fix IH 1. intros [i r ks]. apply H.
  induction ks as [|k ks IHks]; constructor; [apply IH | exact IHks].
Qed.


Lemma count_id_forest_cons i n f :
  count_id_forest i (n :: f) = count_id i n + count_id_forest i f.
Proof. reflexivity. Qed.

Lemma prune_id ids n : node_id (prune ids n) = node_id n.
Proof. by destruct n. Qed.

Lemma count_pruned_kids i ids ks :
  Forall (λ k, node_id k ∉ ids → count_id i (prune ids k) = 0) ks →
  sum_list (map (count_id i)
              (filter (λ k, node_id k ∉ ids) (map (prune ids) ks))) = 0.
Proof.
  induction 1 as [|k ks Hk _ IH]; [done |].
  change (map (prune ids) (k :: ks)) with (prune ids k :: map (prune ids) ks).
  rewrite filter_cons. case_decide as Hid; [| exact IH].
  change (count_id i (prune ids k) +
          sum_list (map (count_id i)
             (filter (λ k, node_id k ∉ ids) (map (prune ids) ks))) = 0).
  rewrite IH, Hk; [done |]. by rewrite prune_id in Hid.
Qed.

Lemma count_prune i ids n :
  i ∈ ids → node_id n ∉ ids → count_id i (prune ids n) = 0.
Proof.
  intros Hi. induction n as [j r ks IH] using node_ind'. intros Hj.
  change (prune ids (Node j r ks))
    with (Node j r (filter (λ k, node_id k ∉ ids) (map (prune ids) ks))).
  change ((if decide (j = i) then 1 else 0) +
          sum_list (map (count_id i)
             (filter (λ k, node_id k ∉ ids) (map (prune ids) ks))) = 0).
  rewrite decide_False by (intros ->; contradiction).
  by rewrite count_pruned_kids.
Qed.

Lemma count_prune_forest i ids f :
  i ∈ ids → count_id_forest i (prune_forest ids f) = 0.
Proof.
  intros Hi. unfold prune_forest.
  induction f as [|n f IH]; [done |].
  change (map (prune ids) (n :: f)) with (prune ids n :: map (prune ids) f).
  rewrite filter_cons. case_decide as Hn; [| exact IH].
  rewrite count_id_forest_cons, IH.
  rewrite count_prune; [done | done |]. by rewrite prune_id in Hn.
Qed.




(** ** Mounting ([createChatbot], the backup retry) *)

Section Mounting.
Import Widget.



Lemma count_chatContainer c :
  count_id BUTTON_ID (chatContainer c) = 1 ∧
  count_id WINDOW_ID (chatContainer c) = 1.
Proof. split; reflexivity. Qed.









(** Calling [init] twice in succession on a loaded page: both calls defer
    their mount and their backup check, and when all callbacks have run the
    page holds one toggle, one panel and the container of the last mount. *)
Example init_twice :
  let p := (init (Some Scenario.config)
              (init (Some Scenario.config) Scenario.page).1).1 in
  timers p = [ (1000%N, WaitCallback (Some Scenario.config));
               (5000%N, Backup (Some Scenario.config));
               (1000%N, WaitCallback (Some Scenario.config));
               (5000%N, Backup (Some Scenario.config)) ] ∧
  let q := run_tasks
             [ (1000%N, WaitCallback (Some Scenario.config));
               (1000%N, WaitCallback (Some Scenario.config));
               (2000%N, CreateChatbot (Some Scenario.config));
               (2000%N, CreateChatbot (Some Scenario.config));
               (2500%N, Wire {| cl_config := Scenario.config;
                                conversationId := "web-chat-2000" |});
               (2500%N, Wire {| cl_config := Scenario.config;
                                conversationId := "web-chat-2000" |});
               (5000%N, Backup (Some Scenario.config));
               (5000%N, Backup (Some Scenario.config)) ] p in
  toggles q = 1 ∧ panels q = 1 ∧
  body q = Some [ Node "root" Plain [];
                  Node "" Plain [ Node "" Plain [] ];
                  chatContainer Scenario.config ].
Proof. vm_compute. repeat split. Qed.

End Mounting.

(** ** One conversation turn of the public widget *)

Section Turn.
Import Widget.









End Turn.

(** ** Overlapping calls of [sendMessage] *)

Section Overlap.
Import Widget.















End Overlap.

Section TurnWitness.
Import Widget.


End TurnWitness.

(** ** Re-mounting and the conversation state *)

Section Remount.
Import Widget.






End Remount.

(** ** Exceptions *)

Section Exceptions.
Import Widget.






(** The [try] blocks do throw: without a configuration object the template
    of [createChatbot] cannot be built, and a rejected [fetch] or a success
    response without a string [response] leaves the [try] block of
    [sendMessage] by an exception. *)
Example try_blocks_throw :
  (createChatbot_try None 2000 Scenario.page).2 = Throw (TypeError "primaryColor") ∧
  (sendMessage_try Scenario.closure {| typingId := "typing-1" |} Rejected
     Scenario.empty_chat).2 = Throw NetworkError ∧
  (sendMessage_try Scenario.closure {| typingId := "typing-1" |}
     (Response true (Some (JObj []))) Scenario.empty_chat).2
  = Throw (TypeError "replace") ∧
  (sendMessage_try Scenario.closure {| typingId := "typing-1" |}
     (Response false (Some JNull)) Scenario.empty_chat).2
  = Throw (TypeError "detail").
Proof. repeat split. Qed.


End Exceptions.

(** ** The chat request *)

Section Requests.
Import Widget.





End Requests.

(** ** Failed sends *)

Section Failures.
Import Widget.














End Failures.

(** ** The resilience loop *)

Section Resilience.
Import Wix.

Lemma tick_geometry (s : css) :
  critical_geometry
    (set_property "transition" "none"
       (set_property "transform" "none"
          (set_property "z-index" "2147483647"
             (set_property "right" "20px"
                (set_property "bottom" "20px"
                   (set_property "position" "fixed" s)))))).
Proof.
  unfold critical_geometry, set_property.
  repeat split; by simplify_map_eq.
Qed.

Lemma enforced_geometry : critical_geometry (list_to_map enforced).
Proof. unfold critical_geometry. repeat split; vm_compute; reflexivity. Qed.

(** C5: whatever inline style the toggle control has, as long as the control
    is in the document, one run of the interval callback and one run of the
    scroll and resize listener each leave it with position [fixed], the
    bottom and right offsets of 20px and the stacking order 2147483647;
    neither looks at the style it finds. *)
Theorem resilience_restores_geometry (d : Controls) (s : css) :
  chatButton d = Some s →
  (∃ s', chatButton (interval_tick d) = Some s' ∧ critical_geometry s') ∧
  (∃ s', chatButton (enforcePosition d) = Some s' ∧ critical_geometry s').
Proof.
  intros Hs. split.
  - eexists. split; [unfold interval_tick; simpl; rewrite Hs; reflexivity |].
    apply tick_geometry.
  - eexists. split; [unfold enforcePosition; simpl; rewrite Hs; reflexivity |].
    apply enforced_geometry.
Qed.

Lemma resilience_restores_geometry_witness :
  let moved : css :=
    <["position" := ("absolute", true)]>
      (<["bottom" := ("300px", true)]> (<["left" := ("0", false)]> ∅)) in
  let d := {| chatButton := Some moved; chatWindow := None |} in
  (∃ s', chatButton (interval_tick d) = Some s' ∧ critical_geometry s') ∧
  (∃ s', chatButton (enforcePosition d) = Some s' ∧ critical_geometry s').
Proof.
  intros moved d. apply (resilience_restores_geometry d moved). reflexivity.
Defined.

End Resilience.

(** ** Rendering *)

Section Rendering.
Import Widget.



End Rendering.

(** ** The tenant-by-domain widget without a tenant *)

Section Tenant.
Import Floors.










(** [isInitialized] is set only after the lookup has settled.  A second call
    of [init] made while the lookup of the first is still pending therefore
    passes the guard: it issues a lookup of its own and mounts a second
    container. *)
Example overlapping_init :
  let o := Response (Some (JObj [ ("status", JStr "error") ])) in
  let s := run "shop.example" [Init; Init; LookupSettles o; LookupSettles o]
             (initial []) in
  length (List.filter is_lookup (requests s)) = 2 ∧
  body s = [container; container].
Proof. vm_compute. split; reflexivity. Qed.

End Tenant.

(** ** The scenarios of the specification, run on the model *)

Section Scenarios.
Import Widget.

(** Scenario B: an HTTP 500 gives one system-error Message and no assistant
    Message, and the placeholder is gone. *)
Example scenario_B :
  kinds (run Scenario.closure
           [Submit "hi" 1700000000100; Settle 0 Scenario.http500]
           (session_start Scenario.config))
  = [ ("", "welcome"); ("", "user"); ("", "error") ].
Proof. vm_compute. reflexivity. Qed.

(** Scenario E: two sends before the first response; the responses are
    rendered in the order in which they arrive. *)
Example scenario_E :
  let first := Response true (Some (JObj [ ("response", JStr "first") ])) in
  let second := Response true (Some (JObj [ ("response", JStr "second") ])) in
  let s := run Scenario.closure
             [ Submit "one" 1700000000100; Submit "two" 1700000000200;
               Settle 1 second; Settle 0 first ]
             (session_start Scenario.config) in
  kinds s = [ ("", "welcome"); ("", "user"); ("", "user");
              ("", "assistant"); ("", "assistant") ] ∧
  (node_role <$> last (messages (chat s)))
  = Some (AssistantMsg (assistant_html Scenario.config "first")).
Proof. vm_compute. split; reflexivity. Qed.

(** Two sends within one millisecond share the id of their placeholders.
    When the first of them fails after its [try] block removed one, its
    [catch] block removes the other as well. *)
Example same_millisecond :
  kinds (run Scenario.closure
           [ Submit "one" 1700000000100; Submit "two" 1700000000100;
             Settle 0 (Response true None) ]
           (session_start Scenario.config))
  = [ ("", "welcome"); ("", "user"); ("", "user"); ("", "error") ].
Proof. vm_compute. reflexivity. Qed.


End Scenarios.

(** * Further properties of the code *)

(** ** The auth store *)

Section AuthStore.
Import Auth.

Ltac auth_unfold :=
  unfold act, login, register, logout, refreshUser, setLoading, request,
    on_error, Auth.try_catch, try_catch_finally, mbind, Auth.M_bind, Auth.bind,
    mret, Auth.M_ret, Auth.ret, throw, Auth.modify, Auth.get in *.

Lemma act_keeps_user_flag a w :
  (isAuthenticated w = true ↔ is_Some (user w)) →
  (isAuthenticated (act a w).1 = true ↔ is_Some (user (act a w).1)).
Proof.
  intros H. destruct w as [u t au lo [st|] to co loc ca].
  all: destruct a as [[e|tok] [e'|u']|[e|u']| |[e'|u']|b]; auth_unfold; simpl in *;
    repeat (case_bool_decide; simpl in * );
    try exact H;
    split; intros X; try done; try (by inversion X); eauto.
Qed.

(** In every state that the store reaches from its initial state through
    completed actions, whatever the requests answer, [isAuthenticated] is
    true exactly when a user is held. *)
Theorem auth_flag_tracks_user (stored : option string) (l : list action) :
  let w := run l (initial stored) in
  isAuthenticated w = true ↔ is_Some (user w).
Proof.
  assert (H0 : isAuthenticated (initial stored) = true
               ↔ is_Some (user (initial stored)))
    by (simpl; split; [done | by inversion 1]).
  unfold run. revert H0. generalize (initial stored).
  induction l as [|a l IH]; intros w Hw; [exact Hw |].
  simpl. apply IH. by apply act_keeps_user_flag.
Qed.

(** [login] and [register] always leave [isLoading] false, and they reject
    exactly when their own request fails, with its error; a failure of the
    user fetch that follows a successful login does not make [login]
    reject. *)
Theorem login_register_settle (w : World) :
  (∀ r me,
     isLoading (login r me w).1 = false ∧
     (login r me w).2 = match r with inl e => inl e | inr _ => inr () end) ∧
  (∀ r,
     isLoading (register r w).1 = false ∧
     (register r w).2 = match r with inl e => inl e | inr _ => inr () end).
Proof.
  destruct w as [u t au lo [st|] to co loc ca]; split.
  all: try (intros [e|tok] [e'|u']); try (intros [e|u']);
    auth_unfold; simpl; repeat (case_bool_decide; simpl); done.
Qed.

(** A failed login changes nothing in the store but [isLoading]: user, token
    and [isAuthenticated] stay as they were, one request was sent, the only
    toast is the interceptor's error toast, and the stored token is removed
    (with a redirect to the login page) exactly when the status was 401. *)
Theorem login_failure_keeps_store (w : World) (e : ApiError) (me : ApiError + User) :
  let w' := (login (inl e) me w).1 in
  user w' = user w ∧ token w' = token w ∧
  isAuthenticated w' = isAuthenticated w ∧
  calls w' = calls w ++ [ {| path := "/auth/login"; authorization := bearer w |} ] ∧
  toasts w' = toasts w ++ [ ToastError (or_default (detail e) "An error occurred") ] ∧
  storedToken w' = (if bool_decide (status e = Some 401%Z) then None
                    else storedToken w) ∧
  location w' = (if bool_decide (status e = Some 401%Z) then Some "/login"
                 else location w).
Proof.
  destruct w as [u t au lo st to co loc ca].
  auth_unfold; simpl. case_bool_decide; simpl; repeat split; done.
Qed.

(** A successful login with a non-empty token stores the token, then fetches
    the user with that token as bearer.  When the fetch succeeds the store
    holds the user and the token and is authenticated; when it fails the
    token is removed again from the store and from [localStorage] and the
    store is not authenticated.  The success toast is shown in both cases. *)
Theorem login_success_fetches_user (w : World) (t : string) (me : ApiError + User) :
  t ≠ "" →
  let w' := (login (inr t) me w).1 in
  calls w' = calls w
    ++ [ {| path := "/auth/login"; authorization := bearer w |};
         {| path := "/auth/me"; authorization := Some ("Bearer " +:+ t) |} ] ∧
  last (toasts w') = Some (ToastSuccess "Logged in successfully!") ∧
  match me with
  | inr u =>
      user w' = Some u ∧ token w' = Some t ∧ isAuthenticated w' = true ∧
      storedToken w' = Some t
  | inl _ =>
      user w' = None ∧ token w' = None ∧ isAuthenticated w' = false ∧
      storedToken w' = None
  end.
Proof.
  intros Ht. destruct w as [u t0 au lo st to co loc ca].
  destruct me as [e|u']; auth_unfold; simpl; unfold bearer, present; simpl;
    rewrite ?bool_decide_eq_false_2 by done; simpl;
    repeat (case_bool_decide; simpl); try congruence;
    rewrite ?last_snoc, <- ?app_assoc; simpl; repeat split; done.
Qed.

Lemma login_success_fetches_user_witness :
  let w' := (login (inr "tok-1")
               (inr {| id := 7; email := "a@x.test"; username := "a";
                       full_name := "A"; is_active := true |})
               (initial None)).1 in
  isAuthenticated w' = true ∧ token w' = Some "tok-1" ∧
  calls w' = [ {| path := "/auth/login"; authorization := None |};
               {| path := "/auth/me"; authorization := Some "Bearer tok-1" |} ].
Proof.
  intros w'.
  destruct (login_success_fetches_user (initial None) "tok-1"
              (inr {| id := 7; email := "a@x.test"; username := "a";
                      full_name := "A"; is_active := true |}))
    as (H1 & _ & _ & H3 & H4 & _); [discriminate |].
  split; [exact H4 |]. split; [exact H3 | exact H1].
Defined.

(** [refreshUser] never rejects.  Without a stored token it clears the store
    without sending a request; with one it sends one request carrying the
    token, and ends authenticated with that token exactly when the request
    succeeds.  After a failed request the stored token is gone. *)
Theorem refreshUser_settles (w : World) (me : ApiError + User) :
  let w' := (refreshUser me w).1 in
  (refreshUser me w).2 = inr () ∧
  (present (storedToken w) = false →
     calls w' = calls w ∧ user w' = None ∧ token w' = None ∧
     isAuthenticated w' = false ∧ storedToken w' = storedToken w) ∧
  (present (storedToken w) = true →
     calls w' = calls w ++ [ {| path := "/auth/me"; authorization := bearer w |} ] ∧
     is_Some (bearer w) ∧
     match me with
     | inr u =>
         user w' = Some u ∧ token w' = storedToken w ∧
         isAuthenticated w' = true ∧ storedToken w' = storedToken w
     | inl _ =>
         user w' = None ∧ token w' = None ∧ isAuthenticated w' = false ∧
         storedToken w' = None
     end).
Proof.
  destruct w as [u t0 au lo [st|] to co loc ca]; destruct me as [e|u'];
    auth_unfold; unfold bearer, present; simpl;
    repeat (case_bool_decide; simpl); repeat split; try done; eauto.
Qed.

Lemma refreshUser_settles_witness :
  let w' := (refreshUser (inl {| status := Some 401%Z; detail := None |})
               (initial (Some "tok-0"))).1 in
  calls w' = [ {| path := "/auth/me"; authorization := Some "Bearer tok-0" |} ] ∧
  isAuthenticated w' = false ∧ storedToken w' = None.
Proof.
  intros w'.
  destruct (refreshUser_settles (initial (Some "tok-0"))
              (inl {| status := Some 401%Z; detail := None |}))
    as (_ & _ & H).
  destruct H as (H1 & _ & _ & _ & H2 & H3); [reflexivity |].
  split; [exact H1 |]. split; [exact H2 | exact H3].
Defined.

(** After [logout], whatever happened before, the store holds no user and no
    token, no token is stored, the next request would carry no
    [Authorization] header, and a [refreshUser] sends no request. *)
Theorem logout_forgets_token (l : list action) (w : World) (me : ApiError + User) :
  let w1 := run (l ++ [Logout]) w in
  user w1 = None ∧ token w1 = None ∧ isAuthenticated w1 = false ∧
  storedToken w1 = None ∧ bearer w1 = None ∧
  calls (run (l ++ [Logout; RefreshUser me]) w) = calls w1.
Proof.
  unfold run. rewrite !fold_left_app. simpl.
  generalize (fold_left (λ w a, (act a w).1) l w). intros w0.
  destruct w0 as [u t0 au lo st to co loc ca].
  destruct me; auth_unfold; simpl; repeat split; done.
Qed.

End AuthStore.

(** ** The public widget: mounting *)

Section MountMore.
Import Widget More.








End MountMore.

(** ** The public widget: conversations *)

Section Conversation.
Import Widget More.












End Conversation.

(** ** Formatting of responses *)

Section Formatting.
Import Widget More.















End Formatting.

(** ** The widget script of the auth store file *)

Section WixWidget.
Import Widget Wix WixMount.





(** Without a configuration object [init] of this widget throws into its
    caller, after it has removed a mounted widget: the page is left without
    toggle and panel, and neither a container nor a wiring is scheduled. *)
Theorem wix_init_without_config_throws (now : N) (p : WixMount.Page) :
  let r := WixMount.init None now p in
  r.2 = Throw (TypeError "companyName") ∧
  WixMount.toggles r.1 = 0 ∧ WixMount.panels r.1 = 0 ∧
  WixMount.timers r.1 = WixMount.timers p ∧
  WixMount.domContentLoaded r.1 = WixMount.domContentLoaded p.
Proof.
  destruct p as [[b|] ri co ti d wi iv li]; simpl;
    unfold WixMount.toggles, WixMount.panels; simpl; repeat split; try done;
    apply count_prune_forest;
    unfold WixMount.reserved, reserved, WixMount.BUTTON_ID, WixMount.WINDOW_ID;
    set_solver.
Qed.

(** When [init] runs before the document has a body, the container is
    appended only at [DOMContentLoaded], but the wiring still runs 500ms
    after [init].  If it runs first it finds nothing and gives up for good:
    the widget that appears later has no handlers, and no interval or
    listener defends it. *)
Theorem wix_init_before_body_is_never_wired (c : Wix.Config) (now : N)
    (p : WixMount.Page) (b : forest) :
  WixMount.body p = None →
  WixMount.domContentLoaded p = [] →
  let p1 := (WixMount.init (Some c) now p).1 in
  let p2 := (WixMount.run_task (Wire ("web-chat-" +:+ pretty now)) p1).1 in
  let p3 := domReady b p2 in
  WixMount.console p2 = WixMount.console p ++ ["Widget elements not found"] ∧
  WixMount.body p3 = Some (b ++ [container]) ∧
  wired p3 = wired p ∧ intervals p3 = intervals p ∧ listeners p3 = listeners p.
Proof.
  intros Hb Hd. destruct p as [b0 ri co ti d wi iv li]. simpl in *. subst.
  repeat split; reflexivity.
Qed.

Lemma wix_init_before_body_is_never_wired_witness :
  let p := {| WixMount.body := None; richText := [];
              WixMount.console := []; WixMount.timers := [];
              WixMount.domContentLoaded := [];
              wired := []; intervals := 0; listeners := 0 |} in
  let p1 := (WixMount.init (Some Scenario.wix_config) 2000 p).1 in
  let p2 := (WixMount.run_task (Wire "web-chat-2000") p1).1 in
  let p3 := domReady [ Node "root" Plain [] ] p2 in
  WixMount.toggles p3 = 1 ∧ wired p3 = [] ∧ intervals p3 = 0.
Proof.
  intros p p1 p2 p3.
  destruct (wix_init_before_body_is_never_wired Scenario.wix_config 2000 p
              [ Node "root" Plain [] ] eq_refl eq_refl)
    as (_ & H2 & H3 & H4 & _).
  split; [| split; [exact H3 | exact H4]].
  assert (E : WixMount.body p3 = Some ([ Node "root" Plain [] ] ++ [container]))
    by exact H2.
  unfold WixMount.toggles, WixMount.elements. rewrite E. reflexivity.
Defined.

End WixWidget.

Section WixTurn.
Import Widget Wix WixMount.

Lemma elem_of_ids_dec X (l : list node) :
  bool_decide (X ∈ node_id <$> l) = true ↔ X ∈ node_id <$> l.
Proof. apply bool_decide_eq_true. Qed.






End WixTurn.

Section WixLoop.
Import Wix WixMount.

Ltac not_listed :=
  let H := fresh in
  intros H;
  repeat (apply elem_of_cons in H as [H|H]; [discriminate H |]);
  by apply elem_of_nil in H.

Lemma tick_window_lookup (s : css) prop :
  prop ∉ window_props →
  set_property "z-index" "2147483646"
    (set_property "right" "20px"
       (set_property "bottom" "90px"
          (set_property "position" "fixed" s))) !! prop = s !! prop.
Proof.
  intros H. unfold set_property, window_props in *.
  rewrite !lookup_insert_ne; [done | | | |]; intros <-; apply H; set_solver.
Qed.

Lemma tick_button_lookup (s : css) prop :
  prop ∉ button_props →
  set_property "transition" "none"
    (set_property "transform" "none"
       (set_property "z-index" "2147483647"
          (set_property "right" "20px"
             (set_property "bottom" "20px"
                (set_property "position" "fixed" s))))) !! prop = s !! prop.
Proof.
  intros H. unfold set_property, button_props in *.
  rewrite !lookup_insert_ne; [done | | | | | |]; intros <-; apply H; set_solver.
Qed.

(** The interval callback touches nothing but the geometry: every other
    declaration of the toggle control and of the panel keeps its value, in
    particular the panel's [display], so a tick neither opens nor closes the
    panel and commutes with a click on the toggle control; and a second
    tick changes nothing. *)
Theorem interval_tick_keeps_the_rest (d : Controls) :
  (∀ s, chatWindow d = Some s →
     ∃ s', chatWindow (interval_tick d) = Some s' ∧
           (∀ prop, prop ∉ window_props → s' !! prop = s !! prop) ∧
           display_of s' = display_of s) ∧
  (∀ s, chatButton d = Some s →
     ∃ s', chatButton (interval_tick d) = Some s' ∧
           (∀ prop, prop ∉ button_props → s' !! prop = s !! prop)) ∧
  interval_tick (interval_tick d) = interval_tick d ∧
  interval_tick (click_toggle d) = click_toggle (interval_tick d).
Proof.
  destruct d as [b w]. split; [| split; [| split]].
  - intros s Hs. simpl in Hs. subst w. eexists. split; [reflexivity |]. split.
    + intros prop. apply tick_window_lookup.
    + unfold display_of. rewrite tick_window_lookup; [done |].
      unfold window_props. not_listed.
  - intros s Hs. simpl in Hs. subst b. eexists. split; [reflexivity |].
    intros prop. apply tick_button_lookup.
  - unfold interval_tick. simpl. f_equal.
    + destruct b as [s|]; [| done]. simpl. f_equal. unfold set_property.
      apply map_eq. intros k.
      rewrite !lookup_insert. repeat case_decide; done.
    + destruct w as [s|]; [| done]. simpl. f_equal. unfold set_property.
      apply map_eq. intros k.
      rewrite !lookup_insert. repeat case_decide; done.
  - unfold interval_tick, click_toggle. simpl. f_equal.
    destruct w as [s|]; [| done]. simpl. f_equal.
    unfold toggle.
    assert (Hd : display_of
              (set_property "z-index" "2147483646"
                 (set_property "right" "20px"
                    (set_property "bottom" "90px"
                       (set_property "position" "fixed" s)))) = display_of s).
    { unfold display_of. rewrite tick_window_lookup; [done |].
      unfold window_props. not_listed. }
    rewrite Hd. unfold set_property.
    apply map_eq. intros k.
    rewrite !lookup_insert. repeat case_decide; subst; done.
Qed.

Lemma interval_tick_keeps_the_rest_witness :
  let d := {| chatButton := None;
              chatWindow := Some (<["display" := ("flex", false)]> ∅) |} in
  ∃ s', chatWindow (interval_tick d) = Some s' ∧
        display_of s' = display_of (<["display" := ("flex", false)]> ∅).
Proof.
  intros d.
  destruct (interval_tick_keeps_the_rest d) as (H & _).
  destruct (H (<["display" := ("flex", false)]> ∅) eq_refl) as (s' & H1 & _ & H2).
  exists s'. split; [exact H1 | exact H2].
Defined.

(** [enforcePosition] replaces the whole inline style of the toggle
    control: the result is the same nineteen declarations whatever the style
    was, so a declaration that the host page added is dropped, while the
    panel is left alone.  The next tick of the interval then rewrites the
    six geometry declarations without their [!important] mark and leaves
    the other thirteen marked. *)
Theorem enforcePosition_resets_style (d : Controls) (s : css) :
  chatButton d = Some s →
  chatButton (enforcePosition d) = Some (list_to_map enforced) ∧
  chatWindow (enforcePosition d) = chatWindow d ∧
  enforcePosition (enforcePosition d) = enforcePosition d ∧
  (∀ prop, prop ∉ enforced.*1 →
     (list_to_map enforced : css) !! prop = None) ∧
  ∃ s', chatButton (interval_tick (enforcePosition d)) = Some s' ∧
        (∀ prop, prop ∈ button_props → snd <$> s' !! prop = Some false) ∧
        (∀ prop, prop ∈ enforced.*1 → prop ∉ button_props →
           snd <$> s' !! prop = Some true).
Proof.
  intros Hs. destruct d as [b w]. simpl in Hs. subst b.
  split; [reflexivity |]. split; [reflexivity |]. split; [reflexivity |].
  split.
  { intros prop Hp. by apply not_elem_of_list_to_map_1. }
  eexists. split; [reflexivity |]. split.
  - intros prop Hp. unfold button_props in Hp.
    repeat (apply elem_of_cons in Hp as [-> | Hp]; [vm_compute; reflexivity |]).
    by apply elem_of_nil in Hp.
  - intros prop Hp Hn. rewrite tick_button_lookup by done.
    unfold enforced in Hp. simpl in Hp.
    repeat (apply elem_of_cons in Hp as [-> | Hp];
            [first [ vm_compute; reflexivity
                   | exfalso; apply Hn; unfold button_props;
                     repeat first [ apply elem_of_list_here
                                  | apply elem_of_list_further ] ] |]).
    by apply elem_of_nil in Hp.
Qed.

Lemma enforcePosition_resets_style_witness :
  let d := {| chatButton := Some (<["opacity" := ("0", true)]> ∅);
              chatWindow := None |} in
  chatButton (enforcePosition d) = Some (list_to_map enforced) ∧
  (list_to_map enforced : css) !! "opacity" = None.
Proof.
  intros d.
  destruct (enforcePosition_resets_style d (<["opacity" := ("0", true)]> ∅) eq_refl)
    as (H1 & _ & _ & H4 & _).
  split; [exact H1 |]. apply H4. simpl. not_listed.
Defined.

End WixLoop.

(** ** The panel of the tenant-by-domain widget *)

Section FloorsPanelProps.
Import FloorsPanel.

Lemma panel_ok_act a p :
  panel_ok p →
  (act a p).2 = Normal () ∧ panel_ok (act a p).1 ∧
  isOpen (act a p).1
  = match a with Toggle => negb (isOpen p) | Close => false | Open => true end.
Proof.
  destruct p as [o w i f]. intros [Hi [[Ho Hw]|[Ho Hw]]]; simpl in *; subst;
    destruct a; unfold panel_ok; simpl; repeat split; auto.
Qed.

Lemma panel_ok_run l : ∀ p, panel_ok p → panel_ok (run l p).
Proof.
  unfold run. induction l as [|a l IH]; intros p Hp; [done |].
  simpl. apply IH. by apply panel_ok_act.
Qed.

(** The flag and the panel never disagree: after any sequence of clicks on
    the toggle, clicks on the close control and calls of [open] on the
    mounted widget, [isOpen] is true exactly when the panel is displayed as
    a block and false exactly when its display is [none]; no handler throws;
    the toggle flips the flag, close clears it and [open] sets it, also when
    the panel is open already. *)
Theorem floors_panel_flag_tracks_display (l : list action) (a : action) :
  let p := run l mounted in
  (isOpen p = true ↔ chatWindow p = Some "block") ∧
  (isOpen p = false ↔ chatWindow p = Some "none") ∧
  (act a p).2 = Normal () ∧
  isOpen (act a p).1
  = match a with Toggle => negb (isOpen p) | Close => false | Open => true end.
Proof.
  intros p.
  assert (Hp : panel_ok p).
  { apply panel_ok_run. split; [reflexivity |]. right. by split. }
  destruct (panel_ok_act a p Hp) as (H1 & _ & H3).
  destruct Hp as [_ [[Ho Hw]|[Ho Hw]]]; rewrite Ho, Hw in *;
    repeat split; auto; discriminate.
Qed.

(** When the panel element is missing, every way of opening or closing a
    closed widget throws and changes nothing.  When only the input field is
    missing, the toggle opens the panel and sets the flag, and throws when
    it tries to give the field the focus. *)
Theorem floors_panel_missing_elements (p : Panel) (a : action) :
  isOpen p = false →
  (chatWindow p = None → act a p = (p, Throw (TypeError "style"))) ∧
  (∀ d, chatWindow p = Some d → chatInput p = false →
     toggleChat p
     = ({| isOpen := true; chatWindow := Some "block"; chatInput := false;
           focused := focused p |}, Throw (TypeError "focus"))).
Proof.
  destruct p as [o w i f]. simpl. intros ->. split.
  - intros ->. by destruct a.
  - intros d -> ->. reflexivity.
Qed.

Lemma floors_panel_missing_elements_witness :
  act Open {| isOpen := false; chatWindow := None; chatInput := true;
              focused := false |}
  = ({| isOpen := false; chatWindow := None; chatInput := true;
        focused := false |}, Throw (TypeError "style")).
Proof.
  destruct (floors_panel_missing_elements
              {| isOpen := false; chatWindow := None; chatInput := true;
                 focused := false |} Open eq_refl) as [H _].
  apply H. reflexivity.
Defined.

End FloorsPanelProps.

(** ** The tenant-by-domain widget: lookup, submissions and replies *)

Section FloorsTenant.
Import Js Dom Eff Floors FloorsMore.




















Ltac fields :=
  unfold connected, submitted, mret, M_ret, ret;
  cbn [currentTenant isOpen isInitialized body tenant_status input messages
       requests console detecting sending upd_console upd_requests
       upd_messages upd_input upd_tenant upd_suspended
       fst snd omap list_omap fmap list_fmap length].





End FloorsTenant.

(** ** The query of the tenant lookup *)

Section LookupQuery.
Import Js Floors FloorsMore.

Lemma hex_digit_unreserved (k : nat) : (k < 16)%nat → unreserved (hex_digit k) = true.
Proof.
  intros H. do 16 (destruct k as [|k]; [reflexivity |]). lia.
Qed.

Lemma hex_digit_inj (a b : nat) :
  (a < 16)%nat → (b < 16)%nat → hex_digit a = hex_digit b → a = b.
Proof.
  intros Ha Hb H. apply (f_equal nat_of_ascii) in H. unfold hex_digit in H.
  rewrite !nat_ascii_embedding in H by (repeat case_decide; lia).
  repeat case_decide; lia.
Qed.

Lemma percent_reserved : unreserved "%"%char = false.
Proof. reflexivity. Qed.

Lemma byte_split (a b : nat) :
  (a / 16 = b / 16 → a mod 16 = b mod 16 → a = b)%nat.
Proof.
  intros H1 H2. rewrite (Nat.div_mod a 16), (Nat.div_mod b 16) by lia. lia.
Qed.

Lemma encode_safe s :
  Forall (λ ch, url_safe ch = true)
         (String.list_ascii_of_string (encodeURIComponent s)).
Proof.
  induction s as [|ch s IH]; [constructor |].
  cbn [encodeURIComponent]. destruct (unreserved ch) eqn:E.
  - cbn [String.list_ascii_of_string]. constructor; [| done].
    unfold url_safe. by rewrite E.
  - pose proof (nat_ascii_bounded ch) as Hb.
    cbn [String.list_ascii_of_string].
    constructor; [reflexivity |].
    constructor.
    { unfold url_safe. rewrite hex_digit_unreserved; [done |].
      apply Nat.Div0.div_lt_upper_bound. lia. }
    constructor; [| done].
    unfold url_safe. rewrite hex_digit_unreserved; [done |].
    apply Nat.mod_upper_bound. lia.
Qed.

Lemma encode_unreserved s :
  forallb unreserved (String.list_ascii_of_string s) = true →
  encodeURIComponent s = s.
Proof.
  induction s as [|ch s IH]; [done |].
  cbn [String.list_ascii_of_string forallb encodeURIComponent].
  intros [-> H]%andb_prop. by rewrite IH.
Qed.

Lemma encode_inj s1 : ∀ s2,
  encodeURIComponent s1 = encodeURIComponent s2 → s1 = s2.
Proof.
  induction s1 as [|c1 s1 IH]; intros [|c2 s2]; cbn [encodeURIComponent].
  - done.
  - destruct (unreserved c2); discriminate.
  - destruct (unreserved c1); discriminate.
  - destruct (unreserved c1) eqn:E1, (unreserved c2) eqn:E2; intros H.
    + injection H as -> H. by rewrite (IH _ H).
    + injection H as -> _. by rewrite percent_reserved in E1.
    + injection H as <- _. by rewrite percent_reserved in E2.
    + pose proof (nat_ascii_bounded c1). pose proof (nat_ascii_bounded c2).
      assert (nat_of_ascii c1 / 16 < 16 ∧ nat_of_ascii c2 / 16 < 16)%nat
        as [Hq1 Hq2] by (split; apply Nat.Div0.div_lt_upper_bound; lia).
      assert (nat_of_ascii c1 mod 16 < 16 ∧ nat_of_ascii c2 mod 16 < 16)%nat
        as [Hr1 Hr2] by (split; apply Nat.mod_upper_bound; lia).
      set (q1 := (nat_of_ascii c1 / 16)%nat) in *.
      set (q2 := (nat_of_ascii c2 / 16)%nat) in *.
      set (r1 := (nat_of_ascii c1 mod 16)%nat) in *.
      set (r2 := (nat_of_ascii c2 mod 16)%nat) in *.
      injection H as Hq Hr H.
      apply hex_digit_inj in Hq; [| done ..].
      apply hex_digit_inj in Hr; [| done ..].
      rewrite (IH _ H). f_equal.
      rewrite <- (ascii_nat_embedding c1), <- (ascii_nat_embedding c2).
      f_equal. by apply byte_split.
Qed.

Lemma append_inj_l (p a b : string) : p +:+ a = p +:+ b → a = b.
Proof.
  induction p as [|ch p IH]; [done |].
  change (String ch p +:+ a) with (String ch (p +:+ a)).
  change (String ch p +:+ b) with (String ch (p +:+ b)).
  intros H. injection H as H. by apply IH.
Qed.

Lemma lookup_url_inj (u1 u2 : string) :
  [TenantDetect u1] = [TenantDetect u2] → u1 = u2.
Proof. intros H. by injection H. Qed.

Lemma lookup_request domain host :
  requests (step domain Init (initial host))
  = [ TenantDetect (API_BASE +:+ "/api/tenant/detect?domain="
                    +:+ encodeURIComponent domain) ].
Proof. reflexivity. Qed.

(** The query of the lookup cannot be broken by the page's address: the
    first call of [init] issues one request, to the detection endpoint of
    the fixed backend, whose [domain] parameter holds nothing but letters,
    digits, the marks [- _ . ! ~ * ' ( )] and [%], so that no host name or
    port can add a parameter or a fragment; a domain made of unreserved
    characters only, such as a plain host name, is sent as it is. *)
Theorem lookup_query_is_safe (domain : string) (host : forest) :
  ∃ q,
    requests (step domain Init (initial host))
    = [ TenantDetect (API_BASE +:+ "/api/tenant/detect?domain=" +:+ q) ] ∧
    Forall (λ ch, url_safe ch = true) (String.list_ascii_of_string q) ∧
    (forallb unreserved (String.list_ascii_of_string domain) = true →
     q = domain).
Proof.
  exists (encodeURIComponent domain).
  split; [apply lookup_request |].
  split; [apply encode_safe | apply encode_unreserved].
Qed.

Lemma lookup_query_is_safe_witness :
  requests (step "shop.example" Init (initial []))
  = [ TenantDetect (API_BASE +:+ "/api/tenant/detect?domain=shop.example") ].
Proof.
  destruct (lookup_query_is_safe "shop.example" []) as (q & H & _ & E).
  rewrite (E eq_refl) in H. exact H.
Defined.

(** The lookup tells the domains apart: pages whose domains differ never
    issue the same lookup request, since the encoding of the domain loses
    nothing. *)
Theorem lookup_identifies_domain (d1 d2 : string) (h1 h2 : forest) :
  requests (step d1 Init (initial h1)) = requests (step d2 Init (initial h2)) →
  d1 = d2.
Proof.
  rewrite !lookup_request. intros H. apply lookup_url_inj in H.
  apply append_inj_l in H. apply append_inj_l in H.
  by apply encode_inj.
Qed.

Lemma lookup_identifies_domain_witness :
  "a b:8080" = "a b:8080".
Proof.
  apply (lookup_identifies_domain "a b:8080" "a b:8080" [] []). reflexivity.
Defined.

End LookupQuery.
